(** * get-git: the GitHub assistant of [github.py]

    A shallow embedding of [GitHubAssistant] (src/github.py): repository
    listing, deletion, cross-account transfer and duplicate reconciliation.

    The Python methods talk to three outside parties: the operator
    ([Confirm.ask]), the hosting platform (httpx requests) and the [git]
    executable (asyncio subprocesses).  They are embedded in a state and
    exception monad over a [World] that holds the process's working
    directory, the directories present on disk and the history of every
    interaction; the outside parties are an [Env] of oracles, indexed by the
    number of interactions made so far. *)

From Stdlib Require Import String Ascii List Bool Arith ZArith Lia.
From Stdlib Require Import DecimalString DecimalNat.
Import ListNotations.

Local Open Scope list_scope.
Local Open Scope string_scope.

(* ================================================================= *)
(** ** Python values used by the source *)

(** [str.lower()], on the ASCII range (platform logins are ASCII). *)
Definition lower_ascii (c : ascii) : ascii :=
  let n := nat_of_ascii c in
  if (65 <=? n)%nat && (n <=? 90)%nat then ascii_of_nat (n + 32) else c.

Fixpoint lower (s : string) : string :=
  match s with
  | EmptyString => EmptyString
  | String c r => String (lower_ascii c) (lower r)
  end.

(** [str.strip()], on ASCII white space. *)
Definition is_space (c : ascii) : bool :=
  let n := nat_of_ascii c in
  (n =? 32)%nat || ((9 <=? n)%nat && (n <=? 13)%nat).

Fixpoint lstrip (s : string) : string :=
  match s with
  | EmptyString => EmptyString
  | String c r => if is_space c then lstrip r else s
  end.

Fixpoint rstrip (s : string) : string :=
  match s with
  | EmptyString => EmptyString
  | String c r =>
      let r' := rstrip r in
      if is_space c && String.eqb r' EmptyString then EmptyString
      else String c r'
  end.

Definition strip (s : string) : string := rstrip (lstrip s).

(** [x in l] for a list of strings. *)
Definition str_in (x : string) (l : list string) : bool :=
  existsb (String.eqb x) l.

(** A Python [dict] with string keys: insertion-ordered, assignment to a
    key already present keeps its position and replaces its value. *)
Definition dict (V : Type) : Type := list (string * V).

Fixpoint dict_set {V : Type} (k : string) (v : V) (d : dict V) : dict V :=
  match d with
  | [] => [(k, v)]
  | (k', v') :: d' =>
      if String.eqb k k' then (k', v) :: d' else (k', v') :: dict_set k v d'
  end.

Fixpoint dict_get {V : Type} (k : string) (d : dict V) : option V :=
  match d with
  | [] => None
  | (k', v') :: d' => if String.eqb k k' then Some v' else dict_get k d'
  end.

Definition dict_keys {V : Type} (d : dict V) : list string := map fst d.

(** [k in d] *)
Definition dict_has {V : Type} (k : string) (d : dict V) : bool :=
  str_in k (dict_keys d).

(** [not d] *)
Definition dict_is_empty {V : Type} (d : dict V) : bool :=
  match d with [] => true | _ => false end.

(** [{key(x): val(x) for x in l if cond(x)}] *)
Definition comprehension_step {A V : Type} (key : A -> string) (val : A -> V)
           (cond : A -> bool) (d : dict V) (x : A) : dict V :=
  if cond x then dict_set (key x) (val x) d else d.

Definition dict_comprehension {A V : Type} (key : A -> string) (val : A -> V)
           (cond : A -> bool) (l : list A) : dict V :=
  fold_left (comprehension_step key val cond) l [].

(* ================================================================= *)
(** ** Data exchanged with the platform *)

(** One element of the JSON array answered by [GET /user/repos].  The keys
    the source reads with [repo[...]] are mandatory, the ones it reads with
    [repo.get(..., default)] are optional. *)
Record RepoJson := mkRepoJson {
  json_name : string;
  json_owner_login : string;
  json_private : bool;
  json_html_url : option string;
  json_stargazers_count : option Z;
  json_forks_count : option Z
}.

(** The [repo_info] dictionary built by [get_repositories]. *)
Record RepoInfo := mkRepoInfo {
  name : string;
  html_url : string;
  visibility : string;
  repo_type : string;
  owner : string;
  stargazers_count : Z;
  forks_count : Z
}.

Inductive Method := GET | POST | DELETE.

(** The [json=] payload of the creation request. *)
Record CreateData := mkCreateData {
  create_name : string;
  create_private : bool
}.

Record Request := mkRequest {
  method : Method;
  url : string;
  headers : list (string * string);
  json : option CreateData
}.

Record Response := mkResponse {
  status_code : Z;
  text : string;
  json_body : list RepoJson
}.

(** What a request comes to: a response, or an exception raised by the
    HTTP client (time-out, connection error). *)
Inductive HttpOutcome :=
| Responded (r : Response)
| HttpRaised (exc : string).

(** What [create_subprocess_exec] followed by [communicate] comes to: the
    process exits with a return code and its captured standard error,
    having created some paths on disk, or the invocation raises. *)
Inductive ProcOutcome :=
| Exited (returncode : Z) (stderr : string) (created : list string)
| SpawnRaised (exc : string).

(* ================================================================= *)
(** ** World, environment and the monad of the methods *)

Inductive Event :=
| Printed (msg : string)
| Asked (prompt : string) (answer : bool)
| Sent (req : Request) (out : HttpOutcome)
| Spawned (cmd : list string) (dir : string) (out : ProcOutcome)
| Chdir (path : string)
| Rmtree (path : string).

Record World := mkWorld {
  clock : nat;              (* interactions with the outside so far *)
  history : list Event;     (* oldest first *)
  cwd : string;             (* os.getcwd() *)
  fs : list string          (* paths present on disk *)
}.

(** The outside: the operator's answers, the platform's answers and the
    behaviour of the external executable, each as a function of the
    interaction's index and of what is asked. *)
Record Env := mkEnv {
  ask : nat -> string -> bool;
  http : nat -> Request -> HttpOutcome;
  spawn : nat -> list string -> string -> ProcOutcome
}.

Inductive Res (A : Type) : Type :=
| Ret (a : A)
| Exc (exc : string).
Arguments Ret {A} a.
Arguments Exc {A} exc.

Definition M (A : Type) : Type := World -> Res A * World.

Definition ret {A : Type} (a : A) : M A := fun w => (Ret a, w).

Definition bind {A B : Type} (m : M A) (f : A -> M B) : M B :=
  fun w =>
    match m w with
    | (Ret a, w') => f a w'
    | (Exc e, w') => (Exc e, w')
    end.

Notation "x <- m ;; k" := (bind m (fun x => k))
  (at level 61, m at next level, right associativity).
Notation "m ;;; k" := (bind m (fun _ => k))
  (at level 61, right associativity).

Definition record (e : Event) (w : World) : World :=
  mkWorld (clock w) ((history w ++ [e])%list) (cwd w) (fs w).

Definition tick (w : World) : World :=
  mkWorld (S (clock w)) (history w) (cwd w) (fs w).

(** [for x in l: body(x)] *)
Fixpoint for_each {A : Type} (l : list A) (body : A -> M unit) : M unit :=
  match l with
  | [] => ret tt
  | x :: l' => body x ;;; for_each l' body
  end.

(* ----------------------------------------------------------------- *)
(** *** Paths *)

Definition is_abs (p : string) : bool :=
  match p with
  | String c _ => Ascii.eqb c "/"%char
  | EmptyString => false
  end.

(** A path as the operating system resolves it from the directory [base]. *)
Definition path_join (base p : string) : string :=
  if is_abs p then p else base ++ "/" ++ p.

(** [q] is [p] or lies below it. *)
Definition under (p q : string) : bool :=
  String.eqb p q || String.prefix (p ++ "/") q.

(* ----------------------------------------------------------------- *)
(** *** Primitive operations *)

Section Primitives.
Variable E : Env.

(** [self.console.print(msg)] *)
Definition console_print (msg : string) : M unit :=
  fun w => (Ret tt, record (Printed msg) w).

(** [Confirm.ask(prompt)] *)
Definition Confirm_ask (prompt : string) : M bool :=
  fun w =>
    let b := ask E (clock w) prompt in
    (Ret b, tick (record (Asked prompt b) w)).

(** [await client.get/post/delete(...)] *)
Definition send (req : Request) : M Response :=
  fun w =>
    let out := http E (clock w) req in
    let w' := tick (record (Sent req out) w) in
    match out with
    | Responded r => (Ret r, w')
    | HttpRaised e => (Exc e, w')
    end.

(** [await asyncio.create_subprocess_exec( *cmd, ...)] followed by
    [await process.communicate()]; yields [(returncode, stderr)]. *)
Definition subprocess_exec (cmd : list string) : M (Z * string) :=
  fun w =>
    let out := spawn E (clock w) cmd (cwd w) in
    let w' := tick (record (Spawned cmd (cwd w) out) w) in
    match out with
    | Exited rc err created =>
        (Ret (rc, err),
         mkWorld (clock w') (history w') (cwd w') ((created ++ fs w')%list))
    | SpawnRaised e => (Exc e, w')
    end.

(** [os.getcwd()] *)
Definition os_getcwd : M string := fun w => (Ret (cwd w), w).

(** [os.chdir(path)] *)
Definition os_chdir (path : string) : M unit :=
  fun w =>
    let w' := record (Chdir path) w in
    (Ret tt, mkWorld (clock w') (history w') (path_join (cwd w) path) (fs w')).

(** [os.path.exists(path)] *)
Definition os_path_exists (path : string) : M bool :=
  fun w => (Ret (str_in (path_join (cwd w) path) (fs w)), w).

(** [shutil.rmtree(path, ignore_errors=True)]: the tree is removed; a
    missing path is not an error. *)
Definition shutil_rmtree (path : string) : M unit :=
  fun w =>
    let target := path_join (cwd w) path in
    let w' := record (Rmtree target) w in
    (Ret tt,
     mkWorld (clock w') (history w') (cwd w')
             (filter (fun q => negb (under target q)) (fs w'))).
End Primitives.

(* ================================================================= *)
(** ** class GitHubAssistant *)

Record GitHubAssistant := mkGitHubAssistant {
username : string;
token : string
}.

(** [self.base_url], fixed by [__init__]. *)
Definition base_url : string := "https://api.github.com".

(** The authorization headers of a client made for [tok]. *)
Definition auth_headers (tok : string) : list (string * string) :=
[("Authorization", "token " ++ tok);
 ("Accept", "application/vnd.github.v3+json")].

Definition private_label (private : bool) : string :=
if private then "Private" else "Public".

Definition from_option {A : Type} (d : A) (o : option A) : A :=
match o with Some a => a | None => d end.

Section Assistant.
Variable E : Env.
Variable self : GitHubAssistant.

Definition list_url : string := base_url ++ "/user/repos?per_page=100".

(** The loop body of [get_repositories]: classify, build [repo_info],
    [continue] when the filter rejects it, otherwise append. *)
Definition get_repositories_step (repo_filter : string)
           (result : list RepoInfo) (repo : RepoJson) : list RepoInfo :=
  let repo_type :=
    if String.eqb (lower (json_owner_login repo)) (lower (username self))
    then "owner" else "collaborator" in
  let visibility := private_label (json_private repo) in
  let repo_info :=
    mkRepoInfo (json_name repo)
               (from_option "" (json_html_url repo))
               visibility
               repo_type
               (json_owner_login repo)
               (from_option 0%Z (json_stargazers_count repo))
               (from_option 0%Z (json_forks_count repo)) in
  if String.eqb repo_filter "owner" && negb (String.eqb repo_type "owner")
  then result
  else if String.eqb repo_filter "collaborator"
          && negb (String.eqb repo_type "collaborator")
  then result
  else (result ++ [repo_info])%list.

Definition get_repositories (repo_filter : string) : M (list RepoInfo) :=
  let url := list_url in
  response <- send E (mkRequest GET url (auth_headers (token self)) None) ;;
  if negb (status_code response =? 200)%Z then
    console_print
      ("[red]Error fetching repositories: " ++ text response ++ "[/red]") ;;;
    ret []
  else
    let repos := json_body response in
    ret (fold_left (get_repositories_step repo_filter) repos []).

Definition delete_url (repo_name : string) : string :=
  base_url ++ "/repos/" ++ username self ++ "/" ++ repo_name.

Definition delete_request (repo_name : string) : Request :=
  mkRequest DELETE (delete_url repo_name) (auth_headers (token self)) None.

Definition delete_prompt (repo_name : string) : string :=
  "Are you sure you want to delete the repository '" ++ repo_name
  ++ "'? This action is irreversible.".

Definition delete_repository (repo_name : string) : M bool :=
  ok <- Confirm_ask E (delete_prompt repo_name) ;;
  if negb ok then
    console_print "[yellow]Deletion cancelled.[/yellow]" ;;;
    ret false
  else
    let url := delete_url repo_name in
    response <- send E (delete_request repo_name) ;;
    if (status_code response =? 204)%Z then
      console_print
        ("[green]Repository '" ++ repo_name ++ "' successfully deleted.[/green]") ;;;
      ret true
    else
      console_print
        ("[red]Error deleting repository '" ++ repo_name ++ "': "
         ++ text response ++ "[/red]") ;;;
      ret false.

Definition transfer_prompt (repo_name new_owner : string) : string :=
  "Are you sure you want to transfer the repository '" ++ repo_name
  ++ "' to account '" ++ new_owner ++ "'?".

Definition create_request (repo_name new_token : string) : Request :=
  mkRequest POST "https://api.github.com/user/repos" (auth_headers new_token)
            (Some (mkCreateData repo_name true)).

Definition clone_cmd (repo_name : string) : list string :=
  ["git"; "clone"; "--mirror";
   "https://" ++ token self ++ "@github.com/" ++ username self ++ "/"
   ++ repo_name ++ ".git"].

Definition set_remote_cmd (repo_name new_owner new_token : string)
  : list string :=
  ["git"; "remote"; "set-url"; "origin";
   "https://" ++ new_token ++ "@github.com/" ++ new_owner ++ "/"
   ++ repo_name ++ ".git"].

Definition push_cmd : list string := ["git"; "push"; "--mirror"; "origin"].

Definition transfer_repository (repo_name new_owner new_token : string)
           (delete_old : bool) : M bool :=
  ok <- Confirm_ask E (transfer_prompt repo_name new_owner) ;;
  if negb ok then
    console_print "[yellow]Transfer cancelled.[/yellow]" ;;;
    ret false
  else
    (* Create repository on the new account *)
    create_response <- send E (create_request repo_name new_token) ;;
    if negb (status_code create_response =? 201)%Z then
      console_print
        ("[red]Error creating repository on the new account: "
         ++ text create_response ++ "[/red]") ;;;
      ret false
    else
    console_print
      ("[green]Repository '" ++ repo_name ++ "' created on account '"
       ++ new_owner ++ "'.[/green]") ;;;
    (* Clone the repository using mirror clone *)
    console_print ("[blue]Cloning repository '" ++ repo_name ++ "'...[/blue]") ;;;
    clone_process <- subprocess_exec E (clone_cmd repo_name) ;;
    if negb (fst clone_process =? 0)%Z then
      console_print
        ("[red]Error cloning repository '" ++ repo_name ++ "': "
         ++ strip (snd clone_process) ++ "[/red]") ;;;
      ret false
    else
    let repo_dir := repo_name ++ ".git" in
    present <- os_path_exists repo_dir ;;
    if negb present then
      console_print ("[red]Local directory '" ++ repo_dir ++ "' not found.[/red]") ;;;
      ret false
    else
    (* Push mirror to the new repository *)
    console_print
      ("[blue]Pushing repository '" ++ repo_name
       ++ "' to the new account...[/blue]") ;;;
    old_cwd <- os_getcwd ;;
    os_chdir repo_dir ;;;
    set_remote_process <-
      subprocess_exec E (set_remote_cmd repo_name new_owner new_token) ;;
    if negb (fst set_remote_process =? 0)%Z then
      console_print
        ("[red]Error setting new remote for '" ++ repo_name ++ "': "
         ++ strip (snd set_remote_process) ++ "[/red]") ;;;
      os_chdir old_cwd ;;;
      ret false
    else
    push_process <- subprocess_exec E push_cmd ;;
    os_chdir old_cwd ;;;
    if negb (fst push_process =? 0)%Z then
      console_print
        ("[red]Error pushing repository '" ++ repo_name
         ++ "' to the new account: " ++ strip (snd push_process) ++ "[/red]") ;;;
      ret false
    else
    (* Remove the local mirror copy *)
    console_print ("[blue]Removing local directory '" ++ repo_dir ++ "'...[/blue]") ;;;
    shutil_rmtree repo_dir ;;;
    (* Optionally delete the repository from the old account *)
    (if delete_old then
       again <- Confirm_ask E
                  ("Delete repository '" ++ repo_name ++ "' from the old account?") ;;
       if again then
         deletion_result <- delete_repository repo_name ;;
         if negb deletion_result then
           console_print
             ("[red]Failed to delete repository '" ++ repo_name
              ++ "' from the old account.[/red]")
         else ret tt
       else ret tt
     else ret tt) ;;;
    console_print
      ("[green]Repository '" ++ repo_name ++ "' transferred successfully.[/green]") ;;;
    ret true.

Definition other_list_request (other_token : string) : Request :=
  mkRequest GET "https://api.github.com/user/repos?per_page=100"
            (auth_headers other_token) None.

(** [other_repos] of [list_duplicate_repos]: the other account's owned
    repositories, name to visibility. *)
Definition other_repos_of (other_username : string)
           (other_repos_data : list RepoJson) : dict string :=
  dict_comprehension json_name
    (fun repo => private_label (json_private repo))
    (fun repo => String.eqb (lower (json_owner_login repo))
                            (lower other_username))
    other_repos_data.

(** [duplicates] of [list_duplicate_repos]. *)
Definition duplicates_of (my_repos : list RepoInfo) (other_repos : dict string)
  : dict string :=
  dict_comprehension name visibility
    (fun repo => dict_has (name repo) other_repos) my_repos.

Definition list_duplicate_repos (other_username other_token : string)
  : M (dict string) :=
  my_repos <- get_repositories "owner" ;;
  response <- send E (other_list_request other_token) ;;
  if negb (status_code response =? 200)%Z then
    console_print
      ("[red]Error fetching repositories for " ++ other_username ++ ": "
       ++ text response ++ "[/red]") ;;;
    ret []
  else
    let other_repos_data := json_body response in
    let other_repos := other_repos_of other_username other_repos_data in
    let duplicates := duplicates_of my_repos other_repos in
    ret duplicates.

(** [repos_to_delete] of [delete_duplicate_repos]. *)
Definition repos_to_delete_of (duplicates : dict string) (exclude : list string)
  : dict string :=
  dict_comprehension fst snd (fun kv => negb (str_in (fst kv) exclude))
                     duplicates.

Definition delete_duplicate_repos (other_username other_token : string)
           (exclude : list string) : M unit :=
  duplicates <- list_duplicate_repos other_username other_token ;;
  if dict_is_empty duplicates then
    console_print "[green]No duplicate repositories found.[/green]"
  else
    let repos_to_delete := repos_to_delete_of duplicates exclude in
    if dict_is_empty repos_to_delete then
      console_print "[yellow]All duplicates were excluded from deletion.[/yellow]"
    else
      console_print
        "[blue]The following duplicate repositories will be deleted:[/blue]" ;;;
      for_each repos_to_delete
        (fun kv => console_print (" - " ++ fst kv ++ " (" ++ snd kv ++ ")")) ;;;
      ok <- Confirm_ask E "Delete these repositories from your account?" ;;
      if negb ok then
        console_print "[yellow]Deletion cancelled.[/yellow]"
      else
        for_each (dict_keys repos_to_delete)
          (fun repo => delete_repository repo ;;; ret tt) ;;;
        console_print "[green]Duplicate repositories deletion completed.[/green]".
End Assistant.

(* ================================================================= *)
(** ** Observations on a history *)

(** The confirmations asked, with their answers, in order. *)
Definition asked (tr : list Event) : list (string * bool) :=
  flat_map (fun e => match e with Asked p b => [(p, b)] | _ => [] end) tr.

(** The requests sent, in order. *)
Definition sent (tr : list Event) : list Request :=
  flat_map (fun e => match e with Sent req _ => [req] | _ => [] end) tr.

(** The lines printed on the console, in order. *)
Definition printed (tr : list Event) : list string :=
  flat_map (fun e => match e with Printed m => [m] | _ => [] end) tr.

(** The subprocesses started, in order. *)
Definition spawned (tr : list Event) : list (list string) :=
  flat_map (fun e => match e with Spawned cmd _ _ => [cmd] | _ => [] end) tr.

(** The states of the migration that an event marks as reached: a step of
    the chain that completed successfully. *)
Inductive Stage :=
| DestinationCreated | Cloned | RemotePointed | Pushed | Cleaned | SourceDeleted.

Definition git_verb (cmd : list string) : string :=
  match cmd with
  | _ :: verb :: _ => verb
  | _ => ""
  end.

Definition stage_of (e : Event) : list Stage :=
  match e with
  | Sent req (Responded r) =>
      match method req with
      | POST => if (status_code r =? 201)%Z then [DestinationCreated] else []
      | DELETE => if (status_code r =? 204)%Z then [SourceDeleted] else []
      | GET => []
      end
  | Spawned cmd _ (Exited rc _ _) =>
      if (rc =? 0)%Z then
        if String.eqb (git_verb cmd) "clone" then [Cloned]
        else if String.eqb (git_verb cmd) "remote" then [RemotePointed]
        else if String.eqb (git_verb cmd) "push" then [Pushed]
        else []
      else []
  | Rmtree _ => [Cleaned]
  | _ => []
  end.

Definition stages (tr : list Event) : list Stage := flat_map stage_of tr.

(** The linear chain of the migration. *)
Definition chain : list Stage :=
  [DestinationCreated; Cloned; RemotePointed; Pushed; Cleaned; SourceDeleted].


(** The push of the mirror was run and succeeded. *)
Definition push_succeeded (tr : list Event) : Prop :=
  exists dir err created, In (Spawned push_cmd dir (Exited 0 err created)) tr.

(** The creation request was sent and the platform did not answer
    "created". *)
Definition creation_failed (repo_name new_token : string) (tr : list Event)
  : Prop :=
  exists out,
    In (Sent (create_request repo_name new_token) out) tr /\
    forall r, out = Responded r -> status_code r <> 201%Z.

(* ================================================================= *)
(** ** Concrete parties, for examples *)

(** A hosting platform that pages its repository listing, as its API
    documents: [per_page] entries a page, the first page unless another is
    asked for.  [accounts] maps an authorization header to the repositories
    visible with it.  Creation and deletion are accepted. *)
Definition page_of (per_page page : nat) (l : list RepoJson) : list RepoJson :=
  firstn per_page (skipn ((page - 1) * per_page) l).

Definition paged_platform (accounts : dict (list RepoJson))
           (req : Request) : HttpOutcome :=
  match method req with
  | GET =>
      match dict_get "Authorization" (headers req) with
      | None => Responded (mkResponse 401 "Requires authentication" [])
      | Some auth =>
          match dict_get auth accounts with
          | None => Responded (mkResponse 401 "Bad credentials" [])
          | Some visible =>
              if String.eqb (url req) list_url then
                Responded (mkResponse 200 "" (page_of 100 1 visible))
              else if String.eqb (url req) (list_url ++ "&page=2") then
                Responded (mkResponse 200 "" (page_of 100 2 visible))
              else Responded (mkResponse 404 "Not Found" [])
          end
      end
  | POST => Responded (mkResponse 201 "" [])
  | DELETE => Responded (mkResponse 204 "" [])
  end.

(** A [git] that succeeds; [clone] creates the mirror directory of the
    repository named by the last component of its URL argument. *)
Definition git_ok (mirror : string) (cmd : list string) (dir : string)
  : ProcOutcome :=
  if String.eqb (git_verb cmd) "clone"
  then Exited 0 "" [path_join dir mirror]
  else Exited 0 "" [].

Definition repo_numbered (login : string) (n : nat) : RepoJson :=
  mkRepoJson ("repo-" ++ NilEmpty.string_of_uint (Nat.to_uint n))
             login (Nat.even n) None None None.

Definition alice : GitHubAssistant := mkGitHubAssistant "alice" "tok-a".

Definition world0 : World := mkWorld 0 [] "/work" [].

(** An account with 101 repositories. *)
Definition alice_101 : list RepoJson := map (repo_numbered "Alice") (seq 0 101).

Definition env_101 : Env :=
  mkEnv (fun _ _ => true)
        (fun _ => paged_platform [("token tok-a", alice_101)])
        (fun _ => git_ok "proj-a.git").

(** alice owns proj-a (public) and proj-b (private), and collaborates on
    carol's shared-lib; carol owns shared-lib and proj-b. *)
Definition alice_repos : list RepoJson :=
  [mkRepoJson "proj-a" "alice" false (Some "https://github.com/alice/proj-a")
              (Some 3%Z) None;
   mkRepoJson "proj-b" "Alice" true None None None;
   mkRepoJson "shared-lib" "carol" false None None None;
   mkRepoJson "shared-lib" "alice" true None None None].

Definition carol_repos : list RepoJson :=
  [mkRepoJson "shared-lib" "Carol" false None None None;
   mkRepoJson "proj-b" "carol" false None None None;
   mkRepoJson "proj-a" "dave" false None None None].

Definition accounts : dict (list RepoJson) :=
  [("token tok-a", alice_repos); ("token tok-c", carol_repos);
   ("token tok-b", [])].

(** What alice and carol both own, with alice's visibility. *)
Definition alice_carol_duplicates : dict string :=
  [("proj-b", "Private"); ("shared-lib", "Private")].

(** The operator affirms everything. *)
Definition env_yes : Env :=
  mkEnv (fun _ _ => true) (fun _ => paged_platform accounts)
        (fun _ => git_ok "proj-a.git").

(** The operator declines everything. *)
Definition env_no : Env :=
  mkEnv (fun _ _ => false) (fun _ => paged_platform accounts)
        (fun _ => git_ok "proj-a.git").

(** The operator affirms the batch question of the duplicate deletion and
    declines every per-repository question. *)
Definition env_batch_only : Env :=
  mkEnv (fun _ p => String.eqb p "Delete these repositories from your account?")
        (fun _ => paged_platform accounts)
        (fun _ => git_ok "proj-a.git").

(** The destination refuses the creation (name already taken). *)
Definition env_create_refused : Env :=
  mkEnv (fun _ _ => true)
        (fun _ req =>
           match method req with
           | POST => Responded (mkResponse 422 "name already exists" [])
           | _ => paged_platform accounts req
           end)
        (fun _ => git_ok "proj-a.git").

(** The push is rejected by the remote. *)
Definition env_push_rejected : Env :=
  mkEnv (fun _ _ => true) (fun _ => paged_platform accounts)
        (fun _ cmd dir =>
           if String.eqb (git_verb cmd) "push"
           then Exited 1 "remote rejected" []
           else git_ok "proj-a.git" cmd dir).

(** Starting the push raises (the operating system refuses the process). *)
Definition env_push_raises : Env :=
  mkEnv (fun _ _ => true) (fun _ => paged_platform accounts)
        (fun _ cmd dir =>
           if String.eqb (git_verb cmd) "push"
           then SpawnRaised "OSError"
           else git_ok "proj-a.git" cmd dir).

(** carol's listing is refused by the platform. *)
Definition env_other_unauthorized : Env :=
  mkEnv (fun _ _ => true)
        (fun _ => paged_platform [("token tok-a", alice_repos)])
        (fun _ => git_ok "proj-a.git").

(** The loop of [get_repositories], read as a comprehension: the
    descriptor of an entry, and whether the filter keeps it. *)
Definition owned_by (login : string) (repo : RepoJson) : bool :=
  String.eqb (lower (json_owner_login repo)) (lower login).

Definition describe (self : GitHubAssistant) (repo : RepoJson) : RepoInfo :=
  mkRepoInfo (json_name repo)
             (from_option "" (json_html_url repo))
             (private_label (json_private repo))
             (if owned_by (username self) repo then "owner" else "collaborator")
             (json_owner_login repo)
             (from_option 0%Z (json_stargazers_count repo))
             (from_option 0%Z (json_forks_count repo)).

Definition keeps (self : GitHubAssistant) (repo_filter : string)
           (repo : RepoJson) : bool :=
  if String.eqb repo_filter "owner" then owned_by (username self) repo
  else if String.eqb repo_filter "collaborator"
       then negb (owned_by (username self) repo)
       else true.

Definition descriptors (self : GitHubAssistant) (repo_filter : string)
           (body : list RepoJson) : list RepoInfo :=
  map (describe self) (filter (keeps self repo_filter) body).

Definition list_request (self : GitHubAssistant) : Request :=
  mkRequest GET list_url (auth_headers (token self)) None.

(** The entries a listing request yields to the caller: the body of a
    response with status 200, nothing otherwise. *)
Definition listing (out : HttpOutcome) : list RepoJson :=
  match out with
  | Responded r => if (status_code r =? 200)%Z then json_body r else []
  | HttpRaised _ => []
  end.

(** The names a batch of per-repository confirmations lets through. *)
Definition affirmed (names : list string) (answers : list bool) : list string :=
  map fst (filter snd (combine names answers)).

Definition batch_prompt : string := "Delete these repositories from your account?".

(** A step of the migration was run and failed: the platform refused the
    creation, or a [git] process exited with a non-zero code. *)
Definition step_failed (tr : list Event) : Prop :=
  (exists req r,
      In (Sent req (Responded r)) tr /\ method req = POST /\
      status_code r <> 201%Z) \/
  (exists cmd dir rc err made,
      In (Spawned cmd dir (Exited rc err made)) tr /\ rc <> 0%Z).

(** Console lines that tell outcomes apart. *)
Definition cancel_notice : string := "[yellow]Transfer cancelled.[/yellow]".
Definition none_found_notice : string :=
  "[green]No duplicate repositories found.[/green]".
Definition all_excluded_notice : string :=
  "[yellow]All duplicates were excluded from deletion.[/yellow]".

(** The HTTP client answers every request (no time-out, no connection
    error). *)
Definition never_raises (E : Env) : Prop :=
  forall k req, exists r, http E k req = Responded r.

(* ================================================================= *)
(** ** The rest of [GitHubAssistant] *)

Section Collaboration.
Variable E : Env.
Variable self : GitHubAssistant.

Definition leave_url (repo : RepoInfo) : string :=
  base_url ++ "/repos/" ++ owner repo ++ "/" ++ name repo
  ++ "/collaborators/" ++ username self.

Definition leave_request (repo : RepoInfo) : Request :=
  mkRequest DELETE (leave_url repo) (auth_headers (token self)) None.

Definition leave_prompt (repo : RepoInfo) : string :=
  "Do you really want to leave the repository '" ++ name repo
  ++ "' (Owner: " ++ owner repo ++ ")?".

Definition leave_repository (repo : RepoInfo) : M bool :=
  ok <- Confirm_ask E (leave_prompt repo) ;;
  if negb ok then
    console_print "[yellow]Operation cancelled.[/yellow]" ;;;
    ret false
  else
    response <- send E (leave_request repo) ;;
    if (status_code response =? 204)%Z then
      console_print
        ("[green]You have successfully left the repository '" ++ name repo
         ++ "'.[/green]") ;;;
      ret true
    else
      console_print
        ("[red]Error leaving repository '" ++ name repo ++ "': "
         ++ text response ++ "[/red]") ;;;
      ret false.
End Collaboration.

(** The values stored in the [stats] dictionary. *)
Inductive PyValue :=
| PyNone
| PyStr (s : string)
| PyInt (z : Z).

(** The JSON object answered by [GET /user], as far as the source reads it;
    every key is read with [user_info.get]. *)
Record UserJson := mkUserJson {
  user_login : option string;
  user_name : option string;
  user_public_repos : option Z;
  user_followers : option Z;
  user_following : option Z;
  user_created_at : option string
}.

(** [d.get(key)] of a string, [d.get(key, default)] of a number. *)
Definition str_or_none (o : option string) : PyValue :=
  match o with Some s => PyStr s | None => PyNone end.

Definition int_or (default : Z) (o : option Z) : PyValue :=
  PyInt (from_option default o).

(** [len(l)] and [sum(l)] *)
Definition py_len {A : Type} (l : list A) : Z := Z.of_nat (length l).

Definition py_sum (l : list Z) : Z := fold_left Z.add l 0%Z.

Section Statistics.
(** [response.json()] of the profile answer: the decoding of the body is the
    HTTP library's. *)
Variable user_json : Response -> UserJson.
Variable E : Env.
Variable self : GitHubAssistant.

Definition user_request : Request :=
  mkRequest GET (base_url ++ "/user") (auth_headers (token self)) None.

Definition get_account_statistics : M (dict PyValue) :=
  let stats : dict PyValue := [] in
  (* Fetch user information *)
  response <- send E user_request ;;
  stats <-
    (if (status_code response =? 200)%Z then
       let user_info := user_json response in
       let stats := dict_set "Login" (str_or_none (user_login user_info)) stats in
       let stats := dict_set "Name" (str_or_none (user_name user_info)) stats in
       let stats :=
         dict_set "Public Repos" (int_or 0 (user_public_repos user_info)) stats in
       let stats :=
         dict_set "Followers" (int_or 0 (user_followers user_info)) stats in
       let stats :=
         dict_set "Following" (int_or 0 (user_following user_info)) stats in
       let stats :=
         dict_set "Created At" (str_or_none (user_created_at user_info)) stats in
       ret stats
     else
       console_print
         ("[red]Error fetching user information: " ++ text response
          ++ "[/red]") ;;;
       ret stats) ;;
  (* Fetch repository details *)
  repos_all <- get_repositories E self "all" ;;
  let stats := dict_set "Total Repos" (PyInt (py_len repos_all)) stats in
  let stats :=
    dict_set "Owned Repos"
      (PyInt (py_len (filter (fun r => String.eqb (repo_type r) "owner")
                             repos_all))) stats in
  let stats :=
    dict_set "Collaborator Repos"
      (PyInt (py_len (filter (fun r => String.eqb (repo_type r) "collaborator")
                             repos_all))) stats in
  let total_stars := py_sum (map stargazers_count repos_all) in
  let total_forks := py_sum (map forks_count repos_all) in
  let stats := dict_set "Total Stars" (PyInt total_stars) stats in
  let stats := dict_set "Total Forks" (PyInt total_forks) stats in
  ret stats.
End Statistics.

(* ================================================================= *)
(** ** main.py: what the menu computes from the operator's answers *)

(** The characters [str.isspace] accepts, in the ASCII range: the space,
    tab to carriage return, and the separators 0x1c to 0x1f. *)
Definition str_isspace (c : ascii) : bool :=
  let n := nat_of_ascii c in
  (n =? 32)%nat || ((9 <=? n)%nat && (n <=? 13)%nat)
  || ((28 <=? n)%nat && (n <=? 31)%nat).

Fixpoint str_lstrip (s : string) : string :=
  match s with
  | EmptyString => EmptyString
  | String c r => if str_isspace c then str_lstrip r else s
  end.

Fixpoint str_rstrip (s : string) : string :=
  match s with
  | EmptyString => EmptyString
  | String c r =>
      let r' := str_rstrip r in
      if str_isspace c && String.eqb r' EmptyString then EmptyString
      else String c r'
  end.

(** [s.strip()] *)
Definition str_strip (s : string) : string := str_rstrip (str_lstrip s).

(** [s.split()]: the maximal runs of characters that are not white space. *)
Fixpoint str_split (s : string) : list string :=
  match s with
  | EmptyString => []
  | String c r =>
      if str_isspace c then str_split r
      else
        match r with
        | EmptyString => [String c EmptyString]
        | String c' _ =>
            if str_isspace c' then String c EmptyString :: str_split r
            else
              match str_split r with
              | w :: ws => String c w :: ws
              | [] => [String c EmptyString]
              end
        end
  end.

(** [" ".join(l)] *)
Fixpoint str_join (sep : string) (l : list string) : string :=
  match l with
  | [] => EmptyString
  | [x] => x
  | x :: l' => x ++ sep ++ str_join sep l'
  end.

Definition digit_value (c : ascii) : option Z :=
  let n := nat_of_ascii c in
  if (48 <=? n)%nat && (n <=? 57)%nat then Some (Z.of_nat (n - 48)) else None.

(** The digits of an integer literal, read left to right: decimal digits,
    with single underscores allowed between two digits. *)
Fixpoint read_digits (after_digit : bool) (acc : Z) (s : string) : option Z :=
  match s with
  | EmptyString => if after_digit then Some acc else None
  | String c r =>
      if Ascii.eqb c "_"%char then
        if after_digit then read_digits false acc r else None
      else
        match digit_value c with
        | Some d => read_digits true (10 * acc + d)%Z r
        | None => None
        end
  end.

(** [int(s)] for a string, [None] standing for [ValueError]: white space
    around, an optional sign directly before the digits.  (Digits outside
    ASCII and the interpreter's limit on the number of digits are not
    modelled.) *)
Definition int_of_str (s : string) : option Z :=
  match str_strip s with
  | EmptyString => None
  | String c r =>
      if Ascii.eqb c "+"%char then read_digits false 0%Z r
      else if Ascii.eqb c "-"%char
           then option_map Z.opp (read_digits false 0%Z r)
           else read_digits false 0%Z (String c r)
  end.

(** [str(n)] of a natural number. *)
Definition str_of_nat (n : nat) : string :=
  NilEmpty.string_of_uint (Nat.to_uint n).

(** [l[i]], [None] standing for [IndexError]: a negative index counts from
    the end. *)
Definition list_index {A : Type} (l : list A) (i : Z) : option A :=
  let n := Z.of_nat (length l) in
  let j := if (i <? 0)%Z then (i + n)%Z else i in
  if (0 <=? j)%Z && (j <? n)%Z then nth_error l (Z.to_nat j) else None.

(** [enumerate(l, start)] *)
Definition enumerate {A : Type} (start : nat) (l : list A) : list (nat * A) :=
  combine (seq start (length l)) l.

(** The object handed to [console.print] for a table: its title, its
    columns and the rows added to it. *)
Record Table := mkTable {
  title : string;
  columns : list string;
  rows : list (list string)
}.

(** The rows of the tables of choices 1 and 2, and of choice 3. *)
Definition repo_rows (repos : list RepoInfo) : list (list string) :=
  map (fun ir => [str_of_nat (fst ir); name (snd ir); visibility (snd ir);
                  repo_type (snd ir); html_url (snd ir)])
      (enumerate 1 repos).

Definition owned_rows (repos : list RepoInfo) : list (list string) :=
  map (fun ir => [str_of_nat (fst ir); name (snd ir); visibility (snd ir);
                  html_url (snd ir)])
      (enumerate 1 repos).

(** [int(repo_index) - 1] and [repos[repo_index_int]] under
    [except (IndexError, ValueError)]; [None] is the invalid index. *)
Definition select_repository (repos : list RepoInfo) (repo_index : string)
  : option RepoInfo :=
  match int_of_str repo_index with
  | None => None
  | Some z => let repo_index_int := (z - 1)%Z in list_index repos repo_index_int
  end.

(** [exclude_input.split() if exclude_input.strip() else []] *)
Definition exclude_list_of (exclude_input : string) : list string :=
  if negb (String.eqb (str_strip exclude_input) EmptyString)
  then str_split exclude_input else [].

Section Menu.
(** The rendering of a table is the console library's.  The operator's
    answers to [Prompt.ask] are the arguments of each action. *)
Variable render : Table -> string.
Variable E : Env.
Variable assistant : GitHubAssistant.



(** Choice 2: delete a repository, or leave it. *)
Definition menu_delete_or_leave (repo_index : string) : M unit :=
  repos <- get_repositories E assistant "all" ;;
  match repos with
  | [] => console_print "[yellow]No repositories found.[/yellow]"
  | _ =>
      console_print
        (render (mkTable "Select a repository to delete/leave"
                         ["Index"; "Name"; "Visibility"; "Type"; "URL"]
                         (repo_rows repos))) ;;;
      match select_repository repos repo_index with
      | None => console_print "[red]Invalid index selected.[/red]"
      | Some selected_repo =>
          if String.eqb (repo_type selected_repo) "owner" then
            delete_repository E assistant (name selected_repo) ;;; ret tt
          else
            leave_repository E assistant selected_repo ;;; ret tt
      end
  end.

(** Choice 3: transfer a repository. *)
Definition menu_transfer (repo_index new_owner new_token delete_old_str : string)
  : M unit :=
  repos <- get_repositories E assistant "owner" ;;
  match repos with
  | [] => console_print "[yellow]No owned repositories found.[/yellow]"
  | _ =>
      console_print
        (render (mkTable "Select a repository to transfer"
                         ["Index"; "Name"; "Visibility"; "URL"]
                         (owned_rows repos))) ;;;
      match select_repository repos repo_index with
      | None => console_print "[red]Invalid index selected.[/red]"
      | Some selected_repo =>
          let delete_old := String.eqb (lower delete_old_str) "yes" in
          transfer_repository E assistant (name selected_repo) new_owner
                              new_token delete_old ;;;
          ret tt
      end
  end.

(** Choice 4: delete duplicate repositories. *)
Definition menu_duplicates (other_username other_token exclude_input : string)
  : M unit :=
  let exclude_list := exclude_list_of exclude_input in
  delete_duplicate_repos E assistant other_username other_token exclude_list.
End Menu.

(* ================================================================= *)
(** ** Further observations *)

(** A word: a string that is not empty and holds no white space. *)
Fixpoint no_space (s : string) : bool :=
  match s with
  | EmptyString => true
  | String c r => negb (str_isspace c) && no_space r
  end.

Definition is_word (s : string) : bool :=
  negb (String.eqb s EmptyString) && no_space s.

(** The entries that the answer to the profile request contributes to the
    statistics: six when it is a 200, none otherwise. *)
Definition profile_entries (user_json : Response -> UserJson)
           (out : HttpOutcome) : dict PyValue :=
  match out with
  | Responded r =>
      if (status_code r =? 200)%Z then
        [("Login", str_or_none (user_login (user_json r)));
         ("Name", str_or_none (user_name (user_json r)));
         ("Public Repos", int_or 0 (user_public_repos (user_json r)));
         ("Followers", int_or 0 (user_followers (user_json r)));
         ("Following", int_or 0 (user_following (user_json r)));
         ("Created At", str_or_none (user_created_at (user_json r)))]
      else []
  | HttpRaised _ => []
  end.

(** The subprocesses started, each with the directory it was started in. *)
Definition spawned_in (tr : list Event) : list (list string * string) :=
  flat_map (fun e => match e with Spawned cmd dir _ => [(cmd, dir)] | _ => [] end)
           tr.

(** A platform that also serves the profile of an account, and what alice's
    profile decodes to; the statistics alice gets from it. *)
Definition env_profile : Env :=
  mkEnv (fun _ _ => true)
        (fun _ req =>
           if String.eqb (url req) (base_url ++ "/user")
           then Responded (mkResponse 200 "" [])
           else paged_platform accounts req)
        (fun _ => git_ok "proj-a.git").

Definition sample_user_json (_ : Response) : UserJson :=
  mkUserJson (Some "alice") None (Some 2%Z) None None None.

Definition sample_statistics : dict PyValue :=
  [("Login", PyStr "alice"); ("Name", PyNone); ("Public Repos", PyInt 2);
   ("Followers", PyInt 0); ("Following", PyInt 0); ("Created At", PyNone);
   ("Total Repos", PyInt 4); ("Owned Repos", PyInt 3);
   ("Collaborator Repos", PyInt 1); ("Total Stars", PyInt 3);
   ("Total Forks", PyInt 0)].

(* ================================================================= *)
(** ** Strings, lists and dictionaries *)

Lemma str_in_In (x : string) (l : list string) : str_in x l = true <-> In x l.
Proof.
  unfold str_in. rewrite existsb_exists. split.
  - intros [y [Hy He]]. apply String.eqb_eq in He. now subst.
  - intros H. exists x. split; [assumption | apply String.eqb_refl].
Qed.

Lemma str_in_not_In (x : string) (l : list string) :
  str_in x l = false <-> ~ In x l.
Proof.
  rewrite <- str_in_In. destruct (str_in x l); split; congruence.
Qed.

Lemma append_inj_l (s a b : string) : s ++ a = s ++ b -> a = b.
Proof.
  induction s as [|c s IH]; simpl; intros H; [assumption|].
  injection H as H. auto.
Qed.


Lemma path_join_abs (base p : string) : is_abs p = true -> path_join base p = p.
Proof. unfold path_join. now intros ->. Qed.

Lemma lower_idempotent (s : string) : lower (lower s) = lower s.
Proof.
  induction s as [|c s IH]; simpl; [reflexivity|].
  f_equal; [|assumption].
  unfold lower_ascii.
  destruct ((65 <=? nat_of_ascii c)%nat && (nat_of_ascii c <=? 90)%nat) eqn:Hc.
  - apply andb_true_iff in Hc as [H1 H2].
    apply Nat.leb_le in H1. apply Nat.leb_le in H2.
    rewrite nat_ascii_embedding by lia.
    destruct ((65 <=? nat_of_ascii c + 32)%nat
              && (nat_of_ascii c + 32 <=? 90)%nat) eqn:Hd; [|reflexivity].
    apply andb_true_iff in Hd as [_ H3]. apply Nat.leb_le in H3. lia.
  - now rewrite Hc.
Qed.

Section DictFacts.
Context {V : Type}.
Implicit Types (d : dict V) (k : string) (v : V).

Lemma dict_keys_set k v d k0 :
  In k0 (dict_keys (dict_set k v d)) <-> k0 = k \/ In k0 (dict_keys d).
Proof.
  induction d as [|[k' v'] d IH]; simpl.
  - intuition.
  - destruct (String.eqb_spec k k') as [->|Hne]; simpl.
    + intuition.
    + unfold dict_keys in IH. rewrite IH. intuition.
Qed.


Lemma dict_set_NoDup k v d :
  NoDup (dict_keys d) -> NoDup (dict_keys (dict_set k v d)).
Proof.
  induction d as [|[k' v'] d IH]; simpl; intros H.
  - constructor; [intros [] | constructor].
  - inversion H as [|? ? Hnin Hnd]; subst.
    destruct (String.eqb_spec k k') as [->|Hne]; simpl.
    + constructor; assumption.
    + constructor; [|auto].
      intros Hin. apply dict_keys_set in Hin as [->|Hin]; [congruence | auto].
Qed.


Lemma dict_has_In k d : dict_has k d = true <-> In k (dict_keys d).
Proof. apply str_in_In. Qed.

Lemma dict_is_empty_nil d : dict_is_empty d = true <-> d = [].
Proof. destruct d; simpl; split; congruence. Qed.
End DictFacts.

Section ComprehensionFacts.
Context {A V : Type}.
Variables (key : A -> string) (val : A -> V) (cond : A -> bool).

Lemma fold_comprehension_keys (l : list A) (acc : dict V) (k : string) :
  In k (dict_keys (fold_left (comprehension_step key val cond) l acc)) <->
  In k (dict_keys acc) \/ exists x, In x l /\ cond x = true /\ key x = k.
Proof.
  revert acc. induction l as [|x l IH]; intros acc; simpl.
  - split; [auto | intros [H|[x [[] _]]]; assumption].
  - rewrite IH. unfold comprehension_step. destruct (cond x) eqn:Hc.
    + rewrite dict_keys_set. split.
      * intros [[->|H]|[y [Hy [Hcy Hk]]]]; eauto 7.
      * intros [H|[y [[->|Hy] [Hcy Hk]]]]; eauto 7.
    + split.
      * intros [H|[y [Hy [Hcy Hk]]]]; eauto 7.
      * intros [H|[y [[->|Hy] [Hcy Hk]]]]; [auto | congruence | eauto 7].
Qed.


Lemma fold_comprehension_NoDup (l : list A) (acc : dict V) :
  NoDup (dict_keys acc) -> NoDup (dict_keys (fold_left (comprehension_step key val cond) l acc)).
Proof.
  revert acc. induction l as [|x l IH]; intros acc H; simpl; [assumption|].
  apply IH. unfold comprehension_step.
  destruct (cond x); [apply dict_set_NoDup|]; assumption.
Qed.

Lemma comprehension_keys (l : list A) (k : string) :
  In k (dict_keys (dict_comprehension key val cond l)) <->
  exists x, In x l /\ cond x = true /\ key x = k.
Proof.
  unfold dict_comprehension. rewrite fold_comprehension_keys.
  simpl. intuition.
Qed.


Lemma comprehension_NoDup (l : list A) :
  NoDup (dict_keys (dict_comprehension key val cond l)).
Proof. apply fold_comprehension_NoDup. constructor. Qed.
End ComprehensionFacts.

(* ================================================================= *)
(** ** Facts about histories and loops *)

Local Open Scope list_scope.
Local Arguments String.append : simpl never.
Local Arguments str_in : simpl never.
Local Arguments path_join : simpl never.
Local Arguments strip : simpl never.



Lemma asked_app (a b : list Event) : asked (a ++ b) = asked a ++ asked b.
Proof. apply flat_map_app. Qed.

Lemma sent_app (a b : list Event) : sent (a ++ b) = sent a ++ sent b.
Proof. apply flat_map_app. Qed.

Lemma asked_printed {A : Type} (line : A -> string) (l : list A) :
  asked (map (fun x => Printed (line x)) l) = [].
Proof. induction l; simpl; auto. Qed.

Lemma sent_printed {A : Type} (line : A -> string) (l : list A) :
  sent (map (fun x => Printed (line x)) l) = [].
Proof. induction l; simpl; auto. Qed.

Lemma for_each_cons {A : Type} (x : A) (l : list A) (body : A -> M unit) w :
  for_each (x :: l) body w =
  match body x w with
  | (Ret _, w1) => for_each l body w1
  | (Exc e, w1) => (Exc e, w1)
  end.
Proof. reflexivity. Qed.

(** A loop that only prints appends one line per element. *)
Lemma print_loop_run {A : Type} (line : A -> string) (l : list A) w :
  for_each l (fun x => console_print (line x)) w =
  (Ret tt,
   mkWorld (clock w) (history w ++ map (fun x => Printed (line x)) l)
           (cwd w) (fs w)).
Proof.
  revert w. induction l as [|x l IH]; intros [c h d f].
  - simpl. unfold ret. now rewrite app_nil_r.
  - rewrite for_each_cons. unfold console_print at 1, record. cbn.
    rewrite IH. cbn. now rewrite <- app_assoc.
Qed.

(* ----------------------------------------------------------------- *)
(** *** Symbolic execution of a method *)

Ltac unfold_run :=
  unfold transfer_repository, delete_repository, bind, ret, Confirm_ask, send,
    subprocess_exec, console_print, os_getcwd, os_chdir, os_path_exists,
    shutil_rmtree, record, tick.

(** One case split on what the outside answers, or on a test of it. *)
Ltac oracle_case :=
  match goal with
  | |- context [ask ?E ?k ?p] => destruct (ask E k p) eqn:?
  | |- context [http ?E ?k ?q] => destruct (http E k q) as [?r|?e] eqn:?
  | |- context [spawn ?E ?k ?c ?d] =>
      destruct (spawn E k c d) as [?rc ?err ?made|?e] eqn:?
  | |- context [(?a =? ?b)%Z] => destruct (Z.eqb_spec a b)
  | |- context [str_in ?a ?b] => destruct (str_in a b) eqn:?
  | |- context [if ?b then _ else _] => is_var b; destruct b
  end; cbn.

Ltac run_all :=
  unfold_run; cbn; repeat oracle_case; repeat rewrite <- app_assoc; cbn.

Ltac settle_tests :=
  repeat match goal with
  | H : ?a = ?b |- context [(?a =? ?b)%Z] => rewrite (proj2 (Z.eqb_eq a b) H)
  | H : ?a <> ?b |- context [(?a =? ?b)%Z] => rewrite (proj2 (Z.eqb_neq a b) H)
  end.

(** Membership in an explicit list, one goal per element. *)
Ltac split_in H :=
  simpl in H;
  repeat match type of H with
         | _ \/ _ => destruct H as [H|H]
         | False => destruct H
         end.

(* ================================================================= *)
(** ** get_repositories *)

Lemma get_repositories_step_keeps self f acc repo :
  get_repositories_step self f acc repo =
  if keeps self f repo then acc ++ [describe self repo] else acc.
Proof.
  unfold get_repositories_step, keeps, describe, owned_by.
  destruct (String.eqb (lower (json_owner_login repo)) (lower (username self)));
    destruct (String.eqb_spec f "owner") as [->|Ho]; simpl; try reflexivity;
    destruct (String.eqb_spec f "collaborator") as [->|Hc]; simpl; reflexivity.
Qed.

Lemma get_repositories_loop self f body acc :
  fold_left (get_repositories_step self f) body acc
  = acc ++ descriptors self f body.
Proof.
  unfold descriptors. revert acc.
  induction body as [|repo body IH]; intros acc; simpl.
  - now rewrite app_nil_r.
  - rewrite IH, get_repositories_step_keeps.
    destruct (keeps self f repo); simpl; [now rewrite <- app_assoc | reflexivity].
Qed.

(** The three ways a call of [get_repositories] goes. *)
Lemma get_repositories_run E self f w :
  get_repositories E self f w =
  let out := http E (clock w) (list_request self) in
  let w1 := tick (record (Sent (list_request self) out) w) in
  match out with
  | Responded r =>
      if (status_code r =? 200)%Z
      then (Ret (descriptors self f (json_body r)), w1)
      else (Ret [],
            record (Printed ("[red]Error fetching repositories: " ++ text r
                             ++ "[/red]")%string) w1)
  | HttpRaised e => (Exc e, w1)
  end.
Proof.
  unfold get_repositories, bind, send, list_request. cbn zeta.
  destruct (http E (clock w) _) as [r|e]; [|reflexivity].
  destruct (status_code r =? 200)%Z; simpl; [|reflexivity].
  unfold ret. now rewrite get_repositories_loop.
Qed.

Lemma paged_first_page accounts self visible :
  dict_get ("token " ++ token self)%string accounts = Some visible ->
  paged_platform accounts (list_request self)
  = Responded (mkResponse 200 "" (firstn 100 visible)).
Proof.
  intros H. unfold paged_platform, list_request. cbn.
  rewrite H, String.eqb_refl. reflexivity.
Qed.

(** C1, as stated, fails: against a platform that pages its listing, an
    account with 101 visible repositories gets 100 of them from
    [get_repositories]; the last one, which the platform serves on the second
    page, is not in the result. *)
Lemma get_repositories_stops_after_first_page :
  exists l,
    fst (get_repositories env_101 alice "all" world0) = Ret l /\
    length alice_101 = 101 /\
    length l = 100 /\
    str_in "repo-100" (map json_name alice_101) = true /\
    str_in "repo-100" (map name l) = false /\
    map name l <> map json_name alice_101 /\
    sent (history (snd (get_repositories env_101 alice "all" world0)))
    = [list_request alice] /\
    exists r,
      http env_101 1
           (mkRequest GET (list_url ++ "&page=2")%string
                      (auth_headers (token alice)) None)
      = Responded r /\
      map json_name (json_body r) = ["repo-100"%string].
Proof.
  eexists. split; [vm_compute; reflexivity|].
  repeat split; try (vm_compute; reflexivity).
  - vm_compute. discriminate.
  - eexists. split; vm_compute; reflexivity.
Qed.

(** C1, amended: [get_repositories] sends exactly one request, the listing
    at the fixed page size with no page parameter, and returns the
    descriptors of the entries of that one response, in order, filtered by
    [repo_filter] (nothing when the status is not 200).  Against a platform
    that pages its listing this is the first page only: at most 100
    entries. *)
Theorem get_repositories_single_request E self repo_filter w :
  exists new,
    history (snd (get_repositories E self repo_filter w)) = history w ++ new /\
    sent new
    = [mkRequest GET "https://api.github.com/user/repos?per_page=100"
                 (auth_headers (token self)) None] /\
    clock (snd (get_repositories E self repo_filter w)) = S (clock w) /\
    fst (get_repositories E self repo_filter w)
    = match http E (clock w) (list_request self) with
      | Responded r =>
          Ret (descriptors self repo_filter (listing (Responded r)))
      | HttpRaised e => Exc e
      end /\
    (forall accounts visible,
        (forall k req, http E k req = paged_platform accounts req) ->
        dict_get ("token " ++ token self)%string accounts = Some visible ->
        fst (get_repositories E self repo_filter w)
        = Ret (descriptors self repo_filter (firstn 100 visible))).
Proof.
  assert (Hrun := get_repositories_run E self repo_filter w). cbn zeta in Hrun.
  assert (Hmain :
    exists new,
      history (snd (get_repositories E self repo_filter w)) = history w ++ new /\
      sent new = [list_request self] /\
      clock (snd (get_repositories E self repo_filter w)) = S (clock w) /\
      fst (get_repositories E self repo_filter w)
      = match http E (clock w) (list_request self) with
        | Responded r =>
            Ret (descriptors self repo_filter (listing (Responded r)))
        | HttpRaised e => Exc e
        end).
  { rewrite Hrun. destruct w as [c h d f]. cbn.
    destruct (http E c (list_request self)) as [r|e]; cbn.
    - destruct (status_code r =? 200)%Z; cbn;
        repeat rewrite <- app_assoc; eexists; repeat split; reflexivity.
    - eexists; repeat split; reflexivity. }
  destruct Hmain as (new & H1 & H2 & H3 & H4).
  exists new. repeat split; try assumption.
  intros accounts visible HE Hv. rewrite H4, HE.
  rewrite (paged_first_page _ _ _ Hv). reflexivity.
Qed.

(* ================================================================= *)
(** ** transfer_repository *)

(** C2, as stated, fails: a run the operator declined and a run whose
    creation step was refused by the platform return the same value,
    [False]; the result of the operation does not tell them apart. *)
Lemma transfer_cancelled_and_failed_return_alike :
  fst (transfer_repository env_no alice "proj-a" "bob" "tok-b" false world0)
  = Ret false /\
  asked (history (snd (transfer_repository env_no alice "proj-a" "bob" "tok-b"
                                           false world0)))
  = [(transfer_prompt "proj-a" "bob", false)] /\
  fst (transfer_repository env_create_refused alice "proj-a" "bob" "tok-b"
                           false world0)
  = Ret false /\
  step_failed (history (snd (transfer_repository env_create_refused alice
                               "proj-a" "bob" "tok-b" false world0))) /\
  fst (transfer_repository env_no alice "proj-a" "bob" "tok-b" false world0)
  = fst (transfer_repository env_create_refused alice "proj-a" "bob" "tok-b"
                             false world0).
Proof.
  repeat split; try (vm_compute; reflexivity).
  left. eexists. eexists. split; [|split].
  - vm_compute. right. left. reflexivity.
  - reflexivity.
  - vm_compute. discriminate.
Qed.

(** C2, amended: when the operator declines the initial confirmation,
    [transfer_repository] prints the cancel notice, does nothing else (no
    request, no subprocess, no change of directory or disk) and returns
    [False]; a run in which a step failed returns [False] as well, so the
    returned value does not separate Cancelled from Failed.  They differ on
    the console only: the cancel notice is printed exactly when the operator
    declined. *)
Theorem transfer_repository_cancelled_returns_false
        E self repo_name new_owner new_token delete_old w :
  exists new,
    history (snd (transfer_repository E self repo_name new_owner new_token
                                      delete_old w))
    = history w ++ new /\
    (ask E (clock w) (transfer_prompt repo_name new_owner) = false ->
     transfer_repository E self repo_name new_owner new_token delete_old w
     = (Ret false,
        record (Printed cancel_notice)
               (tick (record (Asked (transfer_prompt repo_name new_owner) false)
                             w)))) /\
    (step_failed new ->
     fst (transfer_repository E self repo_name new_owner new_token delete_old w)
     = Ret false) /\
    (In cancel_notice (printed new) <->
     ask E (clock w) (transfer_prompt repo_name new_owner) = false).
Proof.
  destruct w as [c h dir f]. run_all.
  all: eexists; split; [reflexivity|].
  all: split; [ intros Hd; try discriminate Hd; reflexivity |].
  all: unfold step_failed, printed, cancel_notice; cbn.
  all: split.
  all: try solve [ split; [ intros _; reflexivity | intros _; now left ] ].
  all: try solve [ intros _; reflexivity ].
  all: try solve [ split; [ intros Hin; split_in Hin;
                             cbv [String.append] in Hin; discriminate Hin
                          | discriminate ] ].
  all: try solve [ intros [[? [? [Hin [Hm Hs]]]] | [? [? [? [? [? [Hin Hrc]]]]]]];
                   split_in Hin; try discriminate Hin;
                   injection Hin as ? ?; subst;
                   first [ discriminate Hm | congruence ] ].
Qed.

(** C4: the code does not do what the claim says.  When starting the push
    raises, the exception leaves [transfer_repository] after the [os.chdir]
    into the mirror and before any [os.chdir(old_cwd)]: the process stays in
    the mirror directory. *)
Theorem transfer_repository_leaves_cwd_when_push_raises :
  fst (transfer_repository env_push_raises alice "proj-a" "bob" "tok-b"
                           false world0)
  = Exc "OSError" /\
  cwd world0 = "/work"%string /\
  cwd (snd (transfer_repository env_push_raises alice "proj-a" "bob" "tok-b"
                                false world0))
  = "/work/proj-a.git"%string.
Proof. vm_compute. repeat split. Qed.

(** X2: on the exits the source writes out, and on every exit before the
    [os.chdir], the directory is back: whenever [transfer_repository]
    returns a value, the working directory is the one it started in. *)
Lemma transfer_repository_restores_cwd_on_return
      E self repo_name new_owner new_token delete_old w v :
  is_abs (cwd w) = true ->
  fst (transfer_repository E self repo_name new_owner new_token delete_old w)
  = Ret v ->
  cwd (snd (transfer_repository E self repo_name new_owner new_token
                                delete_old w))
  = cwd w.
Proof.
  destruct w as [c h dir f]. cbn [cwd]. intros Habs. run_all.
  all: repeat rewrite (path_join_abs _ dir Habs).
  all: intros; try reflexivity; discriminate.
Qed.

(** X3: an exception that escapes after the [os.chdir] into the mirror
    (and before the clean-up) leaves the process in the mirror directory. *)
Lemma transfer_repository_cwd_after_raise
      E self repo_name new_owner new_token delete_old w e :
  is_abs (cwd w) = true ->
  fst (transfer_repository E self repo_name new_owner new_token delete_old w)
  = Exc e ->
  forall new,
    history (snd (transfer_repository E self repo_name new_owner new_token
                                      delete_old w))
    = history w ++ new ->
    In (Chdir (repo_name ++ ".git")%string) new ->
    ~ In (Rmtree (path_join (cwd w) (repo_name ++ ".git")%string)) new ->
    cwd (snd (transfer_repository E self repo_name new_owner new_token
                                  delete_old w))
    = path_join (cwd w) (repo_name ++ ".git")%string.
Proof.
  destruct w as [c h dir f]. cbn [cwd history]. intros Habs. run_all.
  all: repeat rewrite (path_join_abs _ dir Habs).
  all: intros Hr new Hh Hin Hnr; try discriminate Hr; try reflexivity.
  all: apply app_inv_head in Hh; subst new.
  all: first [ solve [split_in Hin; discriminate Hin]
             | exfalso; apply Hnr; simpl; tauto ].
Qed.

(** C5: in every execution the stages reached, in order, are an initial
    segment of the chain DestinationCreated, Cloned, RemotePointed, Pushed,
    Cleaned, SourceDeleted; so Pushed is only reached after
    DestinationCreated and then Cloned.  When the creation fails, the job
    stops there: no subprocess is started (no clone is attempted), the disk
    is as it was, and the job does not report success. *)
Theorem transfer_repository_stage_order
        E self repo_name new_owner new_token delete_old w :
  exists new,
    history (snd (transfer_repository E self repo_name new_owner new_token
                                      delete_old w))
    = history w ++ new /\
    (exists k, stages new = firstn k chain) /\
    (In Pushed (stages new) ->
     exists rest,
       stages new
       = DestinationCreated :: Cloned :: RemotePointed :: Pushed :: rest) /\
    (creation_failed repo_name new_token new ->
     spawned new = [] /\
     fs (snd (transfer_repository E self repo_name new_owner new_token
                                  delete_old w))
     = fs w /\
     fst (transfer_repository E self repo_name new_owner new_token delete_old w)
     <> Ret true).
Proof.
  destruct w as [c h dir f]. run_all.
  all: eexists; split; [reflexivity|].
  all: unfold stages, stage_of, spawned, creation_failed; cbn; settle_tests; cbn.
  all: split; [first [ now exists 0%nat | now exists 1%nat | now exists 2%nat
                     | now exists 3%nat | now exists 4%nat | now exists 5%nat
                     | now exists 6%nat ] |].
  all: split; [ intros Hp;
                first [ solve [split_in Hp; discriminate]
                      | eexists; reflexivity ] |].
  all: first [ solve [ intros _; repeat split; congruence ] | idtac ].
  all: intros [out [Hin Hbad]]; exfalso; split_in Hin; try discriminate.
  all: try (injection Hin as Hout; subst out; now apply (Hbad _ eq_refl)).
Qed.



(** Both outcomes on concrete runs: the mirror of a rejected push stays,
    the mirror of an accepted push is gone. *)
Example mirror_kept_after_rejected_push :
  fs (snd (transfer_repository env_push_rejected alice "proj-a" "bob" "tok-b"
                               false world0))
  = ["/work/proj-a.git"%string].
Proof. vm_compute. reflexivity. Qed.

Example mirror_removed_after_push :
  fst (transfer_repository env_yes alice "proj-a" "bob" "tok-b" false world0)
  = Ret true /\
  fs (snd (transfer_repository env_yes alice "proj-a" "bob" "tok-b" false
                               world0))
  = [].
Proof. vm_compute. split; reflexivity. Qed.

(** C9: the first request of a confirmed migration is the creation on the
    destination account, [POST /user/repos] with the new account's token,
    carrying the source's repository name and [private = True]; nothing in
    the run supplies the source's visibility, and every later request is a
    deletion.  A declined migration sends nothing. *)
Theorem transfer_repository_creates_private
        E self repo_name new_owner new_token delete_old w :
  exists new,
    history (snd (transfer_repository E self repo_name new_owner new_token
                                      delete_old w))
    = history w ++ new /\
    (ask E (clock w) (transfer_prompt repo_name new_owner) = false ->
     sent new = []) /\
    (ask E (clock w) (transfer_prompt repo_name new_owner) = true ->
     exists rest,
       sent new =
       mkRequest POST "https://api.github.com/user/repos"
                 (auth_headers new_token)
                 (Some (mkCreateData repo_name true)) :: rest /\
       forall req, In req rest -> method req = DELETE).
Proof.
  destruct w as [c h dir f]. run_all.
  all: eexists; split; [reflexivity|].
  all: split; [ intros Hd; try discriminate Hd; reflexivity |].
  all: intros Ha; try discriminate Ha.
  all: unfold sent; cbn; eexists; split; [reflexivity|].
  all: intros req Hin; split_in Hin; subst; reflexivity.
Qed.

(* ================================================================= *)
(** ** list_duplicate_repos *)

Lemma keeps_owner self repo : keeps self "owner" repo = owned_by (username self) repo.
Proof. reflexivity. Qed.

Lemma in_descriptors self f body x :
  In x (descriptors self f body) <->
  exists a, In a body /\ keeps self f a = true /\ x = describe self a.
Proof.
  unfold descriptors. rewrite in_map_iff. split.
  - intros [a [Hx Ha]]. apply filter_In in Ha as [Ha Hk]. eauto.
  - intros [a [Ha [Hk Hx]]]. exists a. split; [auto | now apply filter_In].
Qed.

Lemma other_repos_keys other_username body n :
  In n (dict_keys (other_repos_of other_username body)) <->
  In n (map json_name (filter (owned_by other_username) body)).
Proof.
  unfold other_repos_of. rewrite comprehension_keys, in_map_iff. split.
  - intros [b [Hb [Ho Hn]]]. exists b. split; [auto | now apply filter_In].
  - intros [b [Hn Hb]]. apply filter_In in Hb as [Hb Ho]. eauto.
Qed.

Section Duplicates.
Variables (self : GitHubAssistant) (other_username : string).
Variables (my_body their_body : list RepoJson).

Lemma duplicates_keys n :
  In n (dict_keys (duplicates_of (descriptors self "owner" my_body)
                                 (other_repos_of other_username their_body)))
  <->
  In n (map json_name (filter (owned_by (username self)) my_body)) /\
  In n (map json_name (filter (owned_by other_username) their_body)).
Proof.
  unfold duplicates_of. rewrite comprehension_keys. split.
  - intros [x [Hx [Hhas Hn]]]. apply in_descriptors in Hx as [a [Ha [Hk ->]]].
    simpl in *. subst n. split.
    + apply in_map. now apply filter_In.
    + now apply other_repos_keys, dict_has_In.
  - intros [Hm Ht]. apply in_map_iff in Hm as [a [Hn Ha]].
    apply filter_In in Ha as [Ha Ho].
    exists (describe self a). split; [|split].
    + apply in_descriptors. eauto.
    + simpl. rewrite Hn. now apply dict_has_In, other_repos_keys.
    + assumption.
Qed.


End Duplicates.

(** Ownership is decided on lower-cased logins, so it does not depend on
    the case in which either login is written. *)
Lemma owned_by_case_insensitive login login' repo repo' :
  lower login = lower login' ->
  lower (json_owner_login repo) = lower (json_owner_login repo') ->
  owned_by login repo = owned_by login' repo'.
Proof. unfold owned_by. now intros -> ->. Qed.


(* ================================================================= *)
(** ** delete_duplicate_repos *)

Lemma list_duplicate_repos_effects E self ou ot w :
  exists new,
    history (snd (list_duplicate_repos E self ou ot w)) = history w ++ new /\
    (forall req, In req (sent new) -> method req = GET) /\
    asked new = [].
Proof.
  destruct w as [c h d f].
  unfold list_duplicate_repos, bind. rewrite get_repositories_run. cbn.
  destruct (http E c (list_request self)) as [r1|e1]; cbn.
  2:{ eexists. split; [reflexivity|]. cbn. split; [|reflexivity].
      intros req [<-|[]]. reflexivity. }
  destruct (status_code r1 =? 200)%Z;
    unfold send, console_print, ret, record, tick; cbn;
    match goal with |- context [http E ?k ?q] =>
      destruct (http E k q) as [r2|e2] end; cbn;
    try destruct (status_code r2 =? 200)%Z; cbn;
    repeat rewrite <- app_assoc; cbn;
    (eexists; split; [reflexivity|]; cbn; split; [|reflexivity];
     intros req Hin; split_in Hin; subst; reflexivity).
Qed.

Lemma affirmed_In m names answers : In m (affirmed names answers) -> In m names.
Proof.
  unfold affirmed. rewrite in_map_iff. intros [[m' b] [<- Hin]].
  apply filter_In in Hin as [Hin _]. now apply in_combine_l in Hin.
Qed.

Lemma delete_request_inj self m n :
  delete_request self m = delete_request self n -> m = n.
Proof.
  unfold delete_request, delete_url. intros H. injection H as H.
  now repeat apply append_inj_l in H.
Qed.

Lemma repos_to_delete_keys duplicates exclude m :
  In m (dict_keys (repos_to_delete_of duplicates exclude)) <->
  In m (dict_keys duplicates) /\ ~ In m exclude.
Proof.
  unfold repos_to_delete_of. rewrite comprehension_keys. split.
  - intros [[k v] [Hin [Hc Hk]]]. simpl in *. subst k. split.
    + unfold dict_keys. apply in_map_iff. now exists (m, v).
    + apply str_in_not_In. now apply negb_true_iff.
  - intros [Hin Hex]. unfold dict_keys in Hin.
    apply in_map_iff in Hin as [[k v] [Hk Hin]]. simpl in Hk. subst k.
    exists (m, v). repeat split; auto. simpl.
    apply negb_true_iff. now apply str_in_not_In.
Qed.

Lemma all_excluded_empty duplicates exclude :
  (forall n, In n (dict_keys duplicates) -> In n exclude) ->
  repos_to_delete_of duplicates exclude = [].
Proof.
  intros Hall. destruct (repos_to_delete_of duplicates exclude) as [|[k v] d]
    eqn:Hr; [reflexivity|].
  assert (Hk : In k (dict_keys (repos_to_delete_of duplicates exclude)))
    by (rewrite Hr; now left).
  apply repos_to_delete_keys in Hk as [Hk Hn]. now apply Hall in Hk.
Qed.

(** The deletion loop: every name gets its own confirmation; a deletion
    is requested for the names whose confirmation was affirmed, and for no
    other; a declined confirmation or a status other than 204 does not stop
    the loop, only a request that raises does. *)
Lemma delete_loop_effects E self (names : list string) w :
  exists new answers,
    history (snd (for_each names
                    (fun repo => delete_repository E self repo ;;; ret tt) w))
    = history w ++ new /\
    length answers <= length names /\
    asked new = combine (map (delete_prompt) names) answers /\
    sent new = map (delete_request self) (affirmed names answers) /\
    (never_raises E ->
     length answers = length names /\
     fst (for_each names
            (fun repo => delete_repository E self repo ;;; ret tt) w) = Ret tt).
Proof.
  remember (fun repo => delete_repository E self repo ;;; ret tt) as body
    eqn:Hb.
  assert (Hbody : forall n w, body n w
                              = (delete_repository E self n ;;; ret tt) w)
    by now subst body.
  clear Hb. revert w. induction names as [|n names IH]; intros [c h d f].
  - exists [], []. cbn. rewrite app_nil_r. repeat split; auto.
  - rewrite for_each_cons, Hbody.
    unfold delete_repository, bind, Confirm_ask, send, console_print, ret,
      record, tick. cbn.
    destruct (ask E c (delete_prompt n)) eqn:Ha; cbn.
    + destruct (http E (S c) (delete_request self n)) as [r|e] eqn:Hh; cbn.
      * destruct (status_code r =? 204)%Z; cbn;
          match goal with |- context [for_each names ?b ?w1] =>
            destruct (IH w1) as (new & answers & Hh1 & Hl & Hask & Hsent & Hnr)
          end; cbn in Hh1;
          (eexists; exists (true :: answers);
           split; [rewrite Hh1; repeat rewrite <- app_assoc; reflexivity|];
           rewrite !asked_app, !sent_app, Hask, Hsent; cbn;
           split; [lia|]; split; [reflexivity|]; split; [reflexivity|];
           intros HE; destruct (Hnr HE) as [Hlen Hret];
           split; [now rewrite Hlen | exact Hret]).
      * exists [Asked (delete_prompt n) true;
                Sent (delete_request self n) (HttpRaised e)], [true].
        cbn. destruct names; cbn;
          (split; [now rewrite <- app_assoc|]);
          (split; [lia|]); (split; [reflexivity|]); (split; [reflexivity|]);
          intros HE; destruct (HE (S c) (delete_request self n)) as [r Hr];
          congruence.
    + match goal with |- context [for_each names ?b ?w1] =>
        destruct (IH w1) as (new & answers & Hh1 & Hl & Hask & Hsent & Hnr)
      end. cbn in Hh1.
      eexists; exists (false :: answers).
      split; [rewrite Hh1; repeat rewrite <- app_assoc; reflexivity|].
      rewrite !asked_app, !sent_app, Hask, Hsent. cbn.
      split; [lia|]. split; [reflexivity|]. split; [reflexivity|].
      intros HE. destruct (Hnr HE) as [Hlen Hret].
      split; [now rewrite Hlen | exact Hret].
Qed.

(** [delete_duplicate_repos], one case per way it goes. *)
Lemma delete_duplicate_repos_run E self other_username other_token exclude w :
  delete_duplicate_repos E self other_username other_token exclude w =
  match list_duplicate_repos E self other_username other_token w with
  | (Ret duplicates, w1) =>
      if dict_is_empty duplicates
      then (Ret tt, record (Printed none_found_notice) w1)
      else
        let rtd := repos_to_delete_of duplicates exclude in
        if dict_is_empty rtd
        then (Ret tt, record (Printed all_excluded_notice) w1)
        else
          let w2 :=
            mkWorld (clock w1)
              ((history w1
                ++ [Printed "[blue]The following duplicate repositories will be deleted:[/blue]"])
               ++ map (fun kv => Printed (" - " ++ fst kv ++ " (" ++ snd kv ++ ")")%string)
                      rtd)
              (cwd w1) (fs w1) in
          let b := ask E (clock w1) batch_prompt in
          let w3 := tick (record (Asked batch_prompt b) w2) in
          if b then
            match for_each (dict_keys rtd)
                    (fun repo => delete_repository E self repo ;;; ret tt) w3
            with
            | (Ret _, w4) =>
                (Ret tt,
                 record (Printed "[green]Duplicate repositories deletion completed.[/green]") w4)
            | (Exc e, w4) => (Exc e, w4)
            end
          else (Ret tt, record (Printed "[yellow]Deletion cancelled.[/yellow]") w3)
  | (Exc e, w1) => (Exc e, w1)
  end.
Proof.
  unfold delete_duplicate_repos.
  remember (fun repo => delete_repository E self repo ;;; ret tt) as body
    eqn:Hbody.
  unfold bind.
  destruct (list_duplicate_repos E self other_username other_token w)
    as [[duplicates|e] w1]; [|reflexivity].
  destruct (dict_is_empty duplicates); [reflexivity|].
  cbn zeta. destruct (dict_is_empty (repos_to_delete_of duplicates exclude));
    [reflexivity|].
  unfold console_print at 1. rewrite print_loop_run.
  unfold Confirm_ask. cbn [clock history cwd fs record]. fold batch_prompt.
  destruct (ask E (clock w1) batch_prompt); reflexivity.
Qed.

Lemma delete_duplicate_repos_none_found E self other_username other_token exclude w :
  fst (list_duplicate_repos E self other_username other_token w) = Ret [] ->
  delete_duplicate_repos E self other_username other_token exclude w
  = (Ret tt,
     record (Printed none_found_notice)
            (snd (list_duplicate_repos E self other_username other_token w))).
Proof.
  unfold delete_duplicate_repos, bind.
  destruct (list_duplicate_repos E self other_username other_token w)
    as [r w1]. cbn. now intros ->.
Qed.

Lemma delete_duplicate_repos_all_excluded E self other_username other_token exclude w duplicates :
  fst (list_duplicate_repos E self other_username other_token w)
  = Ret duplicates ->
  duplicates <> [] ->
  (forall n, In n (dict_keys duplicates) -> In n exclude) ->
  delete_duplicate_repos E self other_username other_token exclude w
  = (Ret tt,
     record (Printed all_excluded_notice)
            (snd (list_duplicate_repos E self other_username other_token w))).
Proof.
  unfold delete_duplicate_repos, bind.
  destruct (list_duplicate_repos E self other_username other_token w)
    as [r w1]. cbn. intros -> Hne Hall.
  destruct duplicates as [|kv duplicates]; [congruence|]. cbn [dict_is_empty].
  now rewrite (all_excluded_empty _ _ Hall).
Qed.

Lemma delete_duplicate_repos_trace E self other_username other_token exclude w :
  exists new,
    history (snd (delete_duplicate_repos E self other_username other_token exclude w))
    = history w ++ new /\
    forall n, In n exclude -> ~ In (delete_request self n) (sent new).
Proof.
  destruct (list_duplicate_repos_effects E self other_username other_token w)
    as (new1 & Hh1 & Hget & Hask1).
  assert (Hnodel : forall n, ~ In (delete_request self n) (sent new1)).
  { intros n Hin. apply Hget in Hin. discriminate Hin. }
  unfold delete_duplicate_repos.
  remember (fun repo => delete_repository E self repo ;;; ret tt) as body
    eqn:Hbody.
  unfold bind.
  destruct (list_duplicate_repos E self other_username other_token w)
    as [[duplicates|e] [c1 h1 d1 f1]] eqn:Hl; cbn in Hh1; subst h1.
  2:{ exists new1. cbn. split; [reflexivity | auto]. }
  destruct (dict_is_empty duplicates).
  { exists (new1 ++ [Printed none_found_notice]).
    unfold console_print, record; cbn.
    split; [now rewrite <- app_assoc|]. rewrite sent_app; cbn.
    rewrite app_nil_r. auto. }
  remember (repos_to_delete_of duplicates exclude) as rtd eqn:Hr.
  assert (Hkeys : forall m, In m (dict_keys rtd) -> ~ In m exclude).
  { intros m Hm. rewrite Hr in Hm. now apply repos_to_delete_keys in Hm. }
  clear Hr.
  destruct (dict_is_empty rtd).
  { exists (new1 ++ [Printed all_excluded_notice]).
    unfold console_print, record; cbn.
    split; [now rewrite <- app_assoc|]. rewrite sent_app; cbn.
    rewrite app_nil_r. auto. }
  unfold console_print at 1. unfold record at 1. cbn.
  rewrite print_loop_run. unfold Confirm_ask, record, tick. cbn.
  fold batch_prompt. destruct (ask E c1 batch_prompt) eqn:Hb; cbn.
  - match goal with |- context [for_each ?l body ?w1] =>
      pose proof (delete_loop_effects E self l w1) as Hloop;
      rewrite <- Hbody in Hloop;
      destruct Hloop as (new2 & answers & Hh2 & Hlen & Hask2 & Hsent2 & _);
      destruct (for_each l body w1) as [[[]|e] [c2 h2 d2 f2]]
    end; cbn in Hh2; subst h2; unfold console_print, record; cbn;
      lazymatch goal with
      | |- exists _, (((((_ ++ _) ++ ?p) ++ ?l) ++ ?q) ++ ?n2) ++ ?z = _ /\ _ =>
          exists (new1 ++ p ++ l ++ q ++ n2 ++ z)
      | |- exists _, ((((_ ++ _) ++ ?p) ++ ?l) ++ ?q) ++ ?n2 = _ /\ _ =>
          exists (new1 ++ p ++ l ++ q ++ n2)
      end;
      (split; [now repeat rewrite <- app_assoc|]);
      rewrite !sent_app, sent_printed, Hsent2; cbn; rewrite ?app_nil_r;
      (intros n Hn Hin; apply in_app_or in Hin as [Hin|Hin];
       [ now apply (Hnodel n)
       | apply in_map_iff in Hin as [m [Hm Hin]];
         apply delete_request_inj in Hm; subst m;
         apply affirmed_In in Hin; now apply (Hkeys n) ]).
  - lazymatch goal with
    | |- exists _, ((((_ ++ _) ++ ?p) ++ ?l) ++ ?q) ++ ?z = _ /\ _ =>
        exists (new1 ++ p ++ l ++ q ++ z)
    end.
    split; [now repeat rewrite <- app_assoc|].
    rewrite !sent_app, sent_printed; cbn; rewrite app_nil_r. auto.
Qed.


(** C3, as stated, fails: after the operator affirmed the batch
    confirmation, every repository of the set is confirmed once more, and a
    repository whose own confirmation is declined is not deleted.  Here the
    operator affirms the batch and declines both repositories: three
    confirmations are asked and no deletion is requested. *)
Lemma delete_duplicates_asks_again_per_repository :
  asked (history (snd (delete_duplicate_repos env_batch_only alice "carol"
                                              "tok-c" [] world0)))
  = [(batch_prompt, true);
     (delete_prompt "proj-b", false);
     (delete_prompt "shared-lib", false)] /\
  sent (history (snd (delete_duplicate_repos env_batch_only alice "carol"
                                             "tok-c" [] world0)))
  = [list_request alice; other_list_request "tok-c"] /\
  fst (list_duplicate_repos env_batch_only alice "carol" "tok-c" world0)
  = Ret alice_carol_duplicates.
Proof. vm_compute. repeat split. Qed.

(** C3, amended: for a non-empty set of duplicates left after exclusion,
    [delete_duplicate_repos] asks one batch confirmation covering the whole
    set; when it is declined nothing is deleted.  When it is affirmed,
    [delete_repository] is called for each remaining repository in order,
    and each call asks its own confirmation: a deletion is requested exactly
    for the repositories whose confirmation is affirmed.  The loop goes
    through the whole set whatever the answers and the statuses of the
    deletions (the HTTP client answering every request), and the call
    returns normally. *)
Theorem delete_duplicate_repos_confirmations E self other_username other_token exclude w duplicates :
  never_raises E ->
  fst (list_duplicate_repos E self other_username other_token w)
  = Ret duplicates ->
  dict_keys (repos_to_delete_of duplicates exclude) <> [] ->
  exists new batch,
    fst (delete_duplicate_repos E self other_username other_token exclude w)
    = Ret tt /\
    history (snd (delete_duplicate_repos E self other_username other_token exclude w))
    = history (snd (list_duplicate_repos E self other_username other_token w))
      ++ new /\
    if (batch : bool) then
      exists answers,
        length answers
        = length (dict_keys (repos_to_delete_of duplicates exclude)) /\
        asked new
        = (batch_prompt, true)
            :: combine (map delete_prompt
                            (dict_keys (repos_to_delete_of duplicates exclude)))
                       answers /\
        sent new
        = map (delete_request self)
              (affirmed (dict_keys (repos_to_delete_of duplicates exclude))
                        answers)
    else asked new = [(batch_prompt, false)] /\ sent new = [].
Proof.
  intros HE Hl Hnames. rewrite delete_duplicate_repos_run.
  destruct (list_duplicate_repos E self other_username other_token w)
    as [r [c1 h1 d1 f1]]. cbn in Hl. subst r. cbn [snd history].
  destruct duplicates as [|kv duplicates]; [now destruct Hnames|].
  cbn [dict_is_empty]. cbn zeta.
  remember (repos_to_delete_of (kv :: duplicates) exclude) as rtd eqn:Hr.
  clear Hr. destruct (dict_is_empty rtd) eqn:He.
  { apply dict_is_empty_nil in He. subst rtd. now destruct Hnames. }
  unfold record, tick. cbn [clock history cwd fs].
  destruct (ask E c1 batch_prompt) eqn:Hb.
  - match goal with |- context [for_each ?l ?b ?w1] =>
      destruct (delete_loop_effects E self l w1)
        as (new2 & answers & Hh2 & _ & Hask2 & Hsent2 & Hnr);
      destruct (Hnr HE) as [Hlen Hret];
      destruct (for_each l b w1) as [res [c2 h2 d2 f2]]
    end. cbn in Hh2, Hret. subst h2 res. cbn [fst snd clock history cwd fs].
    lazymatch goal with
    | |- exists _ _, _ /\ ((((_ ++ ?p) ++ ?l) ++ ?q) ++ ?n2) ++ ?z = _ /\ _ =>
        exists (p ++ l ++ q ++ n2 ++ z), true
    end.
    split; [reflexivity|]. split; [now repeat rewrite <- app_assoc|].
    exists answers. split; [exact Hlen|].
    rewrite !asked_app, !sent_app, asked_printed, sent_printed, Hask2, Hsent2.
    cbn. rewrite !app_nil_r. split; reflexivity.
  - cbn [fst snd clock history cwd fs].
    lazymatch goal with
    | |- exists _ _, _ /\ (((_ ++ ?p) ++ ?l) ++ ?q) ++ ?z = _ /\ _ =>
        exists (p ++ l ++ q ++ z), false
    end.
    split; [reflexivity|]. split; [now repeat rewrite <- app_assoc|].
    rewrite !asked_app, !sent_app, asked_printed, sent_printed. cbn.
    split; reflexivity.
Qed.

Lemma paged_platform_responds accounts req :
  exists r, paged_platform accounts req = Responded r.
Proof.
  unfold paged_platform.
  destruct (method req); try (eexists; reflexivity).
  destruct (dict_get "Authorization" (headers req)) as [auth|];
    [|eexists; reflexivity].
  destruct (dict_get auth accounts) as [visible|]; [|eexists; reflexivity].
  destruct (String.eqb (url req) list_url); [eexists; reflexivity|].
  destruct (String.eqb (url req) (list_url ++ "&page=2")%string);
    eexists; reflexivity.
Qed.

(** The theorem at work: alice against carol, [proj-b] excluded, an
    operator who affirms everything. *)
Lemma delete_duplicate_repos_confirmations_witness :
  exists new batch,
    fst (delete_duplicate_repos env_yes alice "carol" "tok-c" ["proj-b"%string]
                                world0)
    = Ret tt /\
    history (snd (delete_duplicate_repos env_yes alice "carol" "tok-c"
                                         ["proj-b"%string] world0))
    = history (snd (list_duplicate_repos env_yes alice "carol" "tok-c" world0))
      ++ new /\
    if (batch : bool) then
      exists answers,
        length answers
        = length (dict_keys (repos_to_delete_of alice_carol_duplicates
                                                ["proj-b"%string])) /\
        asked new
        = (batch_prompt, true)
            :: combine (map delete_prompt
                            (dict_keys (repos_to_delete_of
                                          alice_carol_duplicates
                                          ["proj-b"%string])))
                       answers /\
        sent new
        = map (delete_request alice)
              (affirmed (dict_keys (repos_to_delete_of alice_carol_duplicates
                                                       ["proj-b"%string]))
                        answers)
    else asked new = [(batch_prompt, false)] /\ sent new = [].
Proof.
  apply (delete_duplicate_repos_confirmations env_yes alice "carol" "tok-c"
           ["proj-b"%string] world0 alice_carol_duplicates).
  - intros k req. apply paged_platform_responds.
  - vm_compute. reflexivity.
  - vm_compute. discriminate.
Defined.

(** C8: [delete_duplicate_repos] requests no deletion for a name of the
    exclude list, whatever the list.  With no duplicate it prints the
    none-found notice; with duplicates that are all excluded it prints the
    all-excluded notice, a different line, and sends nothing but the two
    listing requests (no deletion). *)
Theorem delete_duplicate_repos_respects_exclude E self other_username other_token exclude w :
  exists new,
    history (snd (delete_duplicate_repos E self other_username other_token exclude w))
    = history w ++ new /\
    (forall n, In n exclude -> ~ In (delete_request self n) (sent new)) /\
    (forall duplicates,
        fst (list_duplicate_repos E self other_username other_token w)
        = Ret duplicates ->
        (duplicates = [] ->
         delete_duplicate_repos E self other_username other_token exclude w
         = (Ret tt,
            record (Printed none_found_notice)
                   (snd (list_duplicate_repos E self other_username other_token w))))
        /\
        (duplicates <> [] ->
         (forall n, In n (dict_keys duplicates) -> In n exclude) ->
         delete_duplicate_repos E self other_username other_token exclude w
         = (Ret tt,
            record (Printed all_excluded_notice)
                   (snd (list_duplicate_repos E self other_username other_token w)))
         /\ forall req, In req (sent new) -> method req = GET)) /\
    all_excluded_notice <> none_found_notice.
Proof.
  destruct (delete_duplicate_repos_trace E self other_username other_token
              exclude w) as (new & Hh & Hex).
  exists new. split; [exact Hh|]. split; [exact Hex|]. split; [|discriminate].
  intros duplicates Hd. split.
  - intros ->. now apply delete_duplicate_repos_none_found.
  - intros Hne Hall.
    pose proof (delete_duplicate_repos_all_excluded E self other_username
                  other_token exclude w duplicates Hd Hne Hall) as Hrun.
    split; [exact Hrun|].
    destruct (list_duplicate_repos_effects E self other_username other_token w)
      as (new1 & Hh1 & Hget & _).
    rewrite Hrun in Hh. cbn in Hh. rewrite Hh1, <- app_assoc in Hh.
    apply app_inv_head in Hh. subst new.
    intros req Hin. rewrite sent_app in Hin. cbn in Hin.
    rewrite app_nil_r in Hin. now apply Hget.
Qed.

(** The scenario of the specification: alice and carol both own
    [shared-lib] (and [proj-b]); with both names excluded nothing is deleted
    and the all-excluded notice is the last line printed. *)
Example all_duplicates_excluded :
  fst (list_duplicate_repos env_yes alice "carol" "tok-c" world0)
  = Ret alice_carol_duplicates /\
  sent (history (snd (delete_duplicate_repos env_yes alice "carol" "tok-c"
                        ["shared-lib"%string; "proj-b"%string] world0)))
  = [list_request alice; other_list_request "tok-c"] /\
  printed (history (snd (delete_duplicate_repos env_yes alice "carol" "tok-c"
                           ["shared-lib"%string; "proj-b"%string] world0)))
  = [all_excluded_notice].
Proof. vm_compute. repeat split. Qed.

(** C10: when the other account's listing is answered with a status other
    than 200, [list_duplicate_repos] returns the empty mapping, and
    [delete_duplicate_repos] prints the none-found notice, asks nothing and
    deletes nothing.  What the two methods return is what they return when
    the listing succeeds and there is no duplicate; only the error line on
    the console differs. *)
Theorem other_listing_failure_reads_as_no_duplicates
        E self other_username other_token exclude w my_repos w1 r :
  get_repositories E self "owner" w = (Ret my_repos, w1) ->
  http E (clock w1) (other_list_request other_token) = Responded r ->
  status_code r <> 200%Z ->
  fst (list_duplicate_repos E self other_username other_token w) = Ret [] /\
  fst (delete_duplicate_repos E self other_username other_token exclude w)
  = Ret tt /\
  history (snd (delete_duplicate_repos E self other_username other_token exclude w))
  = history w1
    ++ [Sent (other_list_request other_token) (Responded r);
        Printed ("[red]Error fetching repositories for " ++ other_username
                 ++ ": " ++ text r ++ "[/red]")%string;
        Printed none_found_notice] /\
  (forall E' r',
      get_repositories E' self "owner" w = (Ret my_repos, w1) ->
      http E' (clock w1) (other_list_request other_token) = Responded r' ->
      status_code r' = 200%Z ->
      duplicates_of my_repos (other_repos_of other_username (json_body r')) = [] ->
      fst (list_duplicate_repos E' self other_username other_token w)
      = fst (list_duplicate_repos E self other_username other_token w) /\
      fst (delete_duplicate_repos E' self other_username other_token exclude w)
      = fst (delete_duplicate_repos E self other_username other_token exclude w) /\
      history (snd (delete_duplicate_repos E' self other_username other_token exclude w))
      = history w1
        ++ [Sent (other_list_request other_token) (Responded r');
            Printed none_found_notice]).
Proof.
  intros Hg Hh Hs.
  assert (Hfail : list_duplicate_repos E self other_username other_token w
                  = (Ret [],
                     record (Printed ("[red]Error fetching repositories for "
                                      ++ other_username ++ ": " ++ text r
                                      ++ "[/red]")%string)
                       (tick (record (Sent (other_list_request other_token)
                                           (Responded r)) w1)))).
  { unfold list_duplicate_repos, bind. rewrite Hg. unfold send. rewrite Hh.
    apply Z.eqb_neq in Hs. rewrite Hs. reflexivity. }
  split; [now rewrite Hfail|].
  rewrite (delete_duplicate_repos_none_found E) by now rewrite Hfail.
  split; [reflexivity|]. rewrite Hfail.
  split; [cbn; now repeat rewrite <- app_assoc|].
  intros E' r' Hg' Hh' Hs' Hnone.
  assert (Hok : list_duplicate_repos E' self other_username other_token w
                = (Ret [],
                   tick (record (Sent (other_list_request other_token)
                                      (Responded r')) w1))).
  { unfold list_duplicate_repos, bind. rewrite Hg'. unfold send. rewrite Hh'.
    apply Z.eqb_eq in Hs'. rewrite Hs'. cbn. unfold ret. now rewrite Hnone. }
  split; [now rewrite Hok|].
  rewrite (delete_duplicate_repos_none_found E') by now rewrite Hok.
  split; [reflexivity|]. rewrite Hok. cbn. now rewrite <- app_assoc.
Qed.

(** The theorem at work: carol's token is refused by the platform. *)
Lemma other_listing_failure_witness :
  fst (list_duplicate_repos env_other_unauthorized alice "carol" "tok-c" world0)
  = Ret [] /\
  fst (delete_duplicate_repos env_other_unauthorized alice "carol" "tok-c"
                              ["proj-b"%string] world0)
  = Ret tt.
Proof.
  pose proof (other_listing_failure_reads_as_no_duplicates
                env_other_unauthorized alice "carol" "tok-c" ["proj-b"%string]
                world0 _ _ _ eq_refl eq_refl
                ltac:(vm_compute; discriminate)) as H.
  split; [exact (proj1 H) | exact (proj1 (proj2 H))].
Defined.

(* ================================================================= *)
(** ** Further properties *)

(** X1: every descriptor returned by [get_repositories] is classified as
    exactly one of "owner" and "collaborator"; it is "owner" if and only if
    the repository's owner login equals the account's login after
    lower-casing; and the filters "owner" and "collaborator" keep only the
    descriptors of that type. *)
Theorem get_repositories_classifies E self repo_filter w l :
  fst (get_repositories E self repo_filter w) = Ret l ->
  forall x, In x l ->
    (repo_type x = "owner"%string <-> lower (owner x) = lower (username self)) /\
    (repo_type x = "owner"%string \/ repo_type x = "collaborator"%string) /\
    (repo_filter = "owner"%string -> repo_type x = "owner"%string) /\
    (repo_filter = "collaborator"%string ->
     repo_type x = "collaborator"%string).
Proof.
  rewrite get_repositories_run. cbn zeta.
  destruct (http E (clock w) (list_request self)) as [r|e]; [|discriminate].
  destruct (status_code r =? 200)%Z; cbn; intros Hl; injection Hl as <-;
    intros x Hx; [|destruct Hx].
  apply in_descriptors in Hx as [a [_ [Hk ->]]].
  unfold keeps in Hk. unfold describe, owned_by in *. cbn.
  destruct (String.eqb_spec (lower (json_owner_login a)) (lower (username self)))
    as [Heq|Hne].
  - repeat split; auto.
    intros ->. cbn in Hk. discriminate Hk.
  - repeat split; auto; try discriminate; try contradiction.
    intros ->. cbn in Hk. discriminate Hk.
Qed.

Lemma get_repositories_classifies_witness :
  (repo_type (describe alice (mkRepoJson "proj-b" "Alice" true None None None))
   = "owner"%string
   <-> lower (owner (describe alice
                       (mkRepoJson "proj-b" "Alice" true None None None)))
       = lower (username alice)) /\
  (repo_type (describe alice (mkRepoJson "proj-b" "Alice" true None None None))
   = "owner"%string \/
   repo_type (describe alice (mkRepoJson "proj-b" "Alice" true None None None))
   = "collaborator"%string) /\
  ("all"%string = "owner"%string ->
   repo_type (describe alice (mkRepoJson "proj-b" "Alice" true None None None))
   = "owner"%string) /\
  ("all"%string = "collaborator"%string ->
   repo_type (describe alice (mkRepoJson "proj-b" "Alice" true None None None))
   = "collaborator"%string).
Proof.
  apply (get_repositories_classifies env_yes alice "all" world0
           (descriptors alice "all" alice_repos)).
  - vm_compute. reflexivity.
  - vm_compute. right. left. reflexivity.
Defined.

(** The theorems on the working directory at work: a rejected push returns
    with the directory restored, a raising push leaves the process in the
    mirror. *)
Lemma transfer_repository_restores_cwd_witness :
  cwd (snd (transfer_repository env_push_rejected alice "proj-a" "bob" "tok-b"
                                false world0))
  = cwd world0.
Proof.
  apply (transfer_repository_restores_cwd_on_return env_push_rejected alice
           "proj-a" "bob" "tok-b" false world0 false).
  - reflexivity.
  - vm_compute. reflexivity.
Defined.

Lemma transfer_repository_cwd_after_raise_witness :
  cwd (snd (transfer_repository env_push_raises alice "proj-a" "bob" "tok-b"
                                false world0))
  = path_join (cwd world0) ("proj-a" ++ ".git")%string.
Proof.
  apply (transfer_repository_cwd_after_raise env_push_raises alice "proj-a"
           "bob" "tok-b" false world0 "OSError"
           ltac:(reflexivity) ltac:(vm_compute; reflexivity)
           (history (snd (transfer_repository env_push_raises alice "proj-a"
                            "bob" "tok-b" false world0)))).
  - vm_compute. reflexivity.
  - vm_compute. tauto.
  - vm_compute. intros H.
    repeat match type of H with
           | _ \/ _ => destruct H as [H|H]
           | False => destruct H
           | _ => discriminate H
           end.
Defined.

(* ================================================================= *)
(** ** main.py: the operator's answers *)

(** *** Words *)

Lemma str_lstrip_no_space s : no_space s = true -> str_lstrip s = s.
Proof.
  destruct s as [|c r]; simpl; [reflexivity|].
  intros H. apply andb_true_iff in H as [Hc _].
  apply negb_true_iff in Hc. now rewrite Hc.
Qed.

Lemma str_rstrip_no_space s : no_space s = true -> str_rstrip s = s.
Proof.
  induction s as [|c r IH]; simpl; [reflexivity|].
  intros H. apply andb_true_iff in H as [Hc Hr].
  apply negb_true_iff in Hc. rewrite Hc, (IH Hr). reflexivity.
Qed.

Lemma str_strip_no_space s : no_space s = true -> str_strip s = s.
Proof.
  intros H. unfold str_strip. rewrite (str_lstrip_no_space s H).
  now apply str_rstrip_no_space.
Qed.

(** A string that strips to nothing holds white space only, and splits into
    nothing. *)
Lemma str_rstrip_head c r : str_isspace c = false -> str_rstrip (String c r) <> "".
Proof. simpl. intros ->. simpl. discriminate. Qed.

Lemma str_lstrip_head s :
  str_lstrip s = "" \/ exists c r, str_lstrip s = String c r /\ str_isspace c = false.
Proof.
  induction s as [|c r IH]; simpl; [now left|].
  destruct (str_isspace c) eqn:Hc; [exact IH|]. right. eauto.
Qed.

Lemma str_strip_empty s : str_strip s = "" -> str_lstrip s = "".
Proof.
  unfold str_strip. destruct (str_lstrip_head s) as [H|[c [r [H Hc]]]];
    [auto|]. rewrite H. intros He. now apply str_rstrip_head in He.
Qed.

Lemma str_split_blank s : str_lstrip s = "" -> str_split s = [].
Proof.
  induction s as [|c r IH]; simpl; [reflexivity|].
  destruct (str_isspace c); [exact IH | discriminate].
Qed.

Lemma str_split_cons c r :
  str_isspace c = false ->
  exists w ws, str_split (String c r) = String c w :: ws.
Proof.
  intros Hc. simpl. rewrite Hc. destruct r as [|c' r']; [eauto|].
  destruct (str_isspace c'); [eauto|].
  destruct (str_split (String c' r')); eauto.
Qed.

Lemma str_split_words s : forallb is_word (str_split s) = true.
Proof.
  induction s as [|c r IH]; [reflexivity|].
  cbn [str_split]. destruct (str_isspace c) eqn:Hc; [exact IH|].
  destruct r as [|c' r'].
  - cbn. now rewrite Hc.
  - destruct (str_isspace c') eqn:Hc'.
    + cbn [forallb]. rewrite IH. cbn. now rewrite Hc.
    + destruct (str_split_cons c' r' Hc') as [w [ws Hw]].
      rewrite Hw in *. cbn [forallb] in *.
      apply andb_true_iff in IH as [Hword Hrest]. rewrite Hrest.
      unfold is_word in *. apply andb_true_iff in Hword as [_ Hns].
      cbn in *. now rewrite Hc, Hns.
Qed.

Lemma str_split_word_then_space x t :
  is_word x = true -> str_split (x ++ String " "%char t)%string = x :: str_split t.
Proof.
  unfold is_word. induction x as [|c x IH]; [discriminate|].
  intros H. cbn in H. apply andb_true_iff in H as [Hc Hx].
  apply negb_true_iff in Hc.
  change (String c x ++ String " "%char t)%string
    with (String c (x ++ String " "%char t)%string).
  cbn [str_split]. rewrite Hc. destruct x as [|c2 x2].
  - reflexivity.
  - change (String c2 x2 ++ String " "%char t)%string
      with (String c2 (x2 ++ String " "%char t)%string) in *.
    cbn in Hx. apply andb_true_iff in Hx as [Hc2 Hx2].
    apply negb_true_iff in Hc2. rewrite Hc2.
    rewrite IH; [reflexivity|]. cbn. now rewrite Hc2, Hx2.
Qed.

Lemma str_split_word x : is_word x = true -> str_split x = [x].
Proof.
  unfold is_word. induction x as [|c x IH]; [discriminate|].
  intros H. cbn in H. apply andb_true_iff in H as [Hc Hx].
  apply negb_true_iff in Hc. cbn [str_split]. rewrite Hc.
  destruct x as [|c2 x2]; [reflexivity|].
  cbn in Hx. apply andb_true_iff in Hx as [Hc2 Hx2].
  apply negb_true_iff in Hc2. rewrite Hc2.
  rewrite IH; [reflexivity|]. cbn. now rewrite Hc2, Hx2.
Qed.

Lemma str_split_join names :
  forallb is_word names = true -> str_split (str_join " " names) = names.
Proof.
  induction names as [|x l IH]; [reflexivity|].
  intros H. cbn [forallb] in H. apply andb_true_iff in H as [Hx Hl].
  destruct l as [|y l'].
  - cbn. now apply str_split_word.
  - change (str_join " " (x :: y :: l'))
      with (x ++ String " "%char (str_join " " (y :: l')))%string.
    rewrite (str_split_word_then_space _ _ Hx). now rewrite (IH Hl).
Qed.

Lemma exclude_list_of_split s : exclude_list_of s = str_split s.
Proof.
  unfold exclude_list_of.
  destruct (String.eqb_spec (str_strip s) ""); [|reflexivity].
  cbn. symmetry. now apply str_split_blank, str_strip_empty.
Qed.

Lemma str_split_lstrip s : str_split (str_lstrip s) = str_split s.
Proof.
  induction s as [|c r IH]; [reflexivity|].
  cbn [str_lstrip]. destruct (str_isspace c) eqn:Hc; [|reflexivity].
  rewrite IH. cbn [str_split]. now rewrite Hc.
Qed.

Lemma str_split_nil s : str_split s = [] -> str_strip s = "".
Proof.
  intros H. unfold str_strip. rewrite <- str_split_lstrip in H.
  destruct (str_lstrip_head s) as [->|[c [r [Hs Hc]]]]; [reflexivity|].
  rewrite Hs in H. destruct (str_split_cons c r Hc) as [x [xs Hx]].
  rewrite Hx in H. discriminate H.
Qed.

(** X4: the exclusion list that choice 4 builds from the operator's answer
    is the list of its white-space separated words: every element is a
    non-empty string without white space, the list is empty exactly when the
    answer is blank, and names typed with single spaces between them come
    back as typed. *)
Theorem exclude_list_of_words exclude_input :
  exclude_list_of exclude_input = str_split exclude_input /\
  forallb is_word (exclude_list_of exclude_input) = true /\
  (exclude_list_of exclude_input = [] <-> str_strip exclude_input = ""%string) /\
  (forall names,
      forallb is_word names = true ->
      exclude_list_of (str_join " " names) = names).
Proof.
  split; [apply exclude_list_of_split|].
  split; [rewrite exclude_list_of_split; apply str_split_words|].
  split.
  - rewrite exclude_list_of_split. split; [apply str_split_nil|].
    intros H. now apply str_split_blank, str_strip_empty.
  - intros names H. rewrite exclude_list_of_split. now apply str_split_join.
Qed.

(** *** Indices *)

(* ---- decimal numerals ---- *)

Lemma read_digits_uint (d : Decimal.uint) (b : bool) (acc : nat) :
  read_digits b (Z.of_nat acc) (NilEmpty.string_of_uint d) =
  match d with
  | Decimal.Nil => if b then Some (Z.of_nat acc) else None
  | _ => Some (Z.of_nat (Nat.of_uint_acc d acc))
  end.
Proof.
  revert b acc.
  induction d as [|d IH|d IH|d IH|d IH|d IH|d IH|d IH|d IH|d IH|d IH];
    intros b acc; [reflexivity|..];
    cbn [NilEmpty.string_of_uint read_digits Nat.of_uint_acc];
    match goal with
    | |- context [Ascii.eqb ?c "_"%char] =>
        let v := eval vm_compute in (Ascii.eqb c "_"%char) in
        change (Ascii.eqb c "_"%char) with v
    end; cbv iota;
    match goal with
    | |- context [digit_value ?c] =>
        let v := eval vm_compute in (digit_value c) in
        change (digit_value c) with v
    end; cbv iota;
    match goal with
    | |- read_digits true ?z _ = Some (Z.of_nat (Nat.of_uint_acc d ?n)) =>
        replace z with (Z.of_nat n) by (rewrite Nat.tail_mul_spec; lia)
    end;
    rewrite IH; destruct d; reflexivity.
Qed.

Lemma uint_no_space (d : Decimal.uint) :
  no_space (NilEmpty.string_of_uint d) = true.
Proof. induction d; cbn; auto. Qed.

Lemma uint_not_signed (d : Decimal.uint) c r :
  NilEmpty.string_of_uint d = String c r ->
  Ascii.eqb c "+"%char = false /\ Ascii.eqb c "-"%char = false.
Proof. destruct d; cbn; intros H; inversion H; subst; split; reflexivity. Qed.

Lemma revapp_nil d d' : Decimal.revapp d d' = Decimal.Nil -> d' = Decimal.Nil.
Proof.
  revert d'. induction d; cbn; intros d' H; auto;
    apply IHd in H; discriminate.
Qed.

Lemma to_little_uint_nonnil n acc :
  acc <> Decimal.Nil -> Nat.to_little_uint n acc <> Decimal.Nil.
Proof.
  revert acc. induction n as [|n IH]; intros acc H; cbn; [assumption|].
  apply IH. destruct acc; cbn; discriminate.
Qed.

Lemma to_uint_nonnil n : Nat.to_uint n <> Decimal.Nil.
Proof.
  unfold Nat.to_uint, Decimal.rev. intros H.
  destruct (Nat.to_little_uint n Decimal.zero) eqn:Hd;
    [ revert Hd; apply to_little_uint_nonnil; discriminate
    | cbn in H; apply revapp_nil in H; discriminate .. ].
Qed.

(** [int(str(n)) == n] *)
Lemma int_of_str_of_nat n : int_of_str (str_of_nat n) = Some (Z.of_nat n).
Proof.
  unfold int_of_str, str_of_nat.
  rewrite (str_strip_no_space _ (uint_no_space _)).
  pose proof (read_digits_uint (Nat.to_uint n) false 0) as Hr.
  pose proof (to_uint_nonnil n) as Hn.
  pose proof (DecimalNat.Unsigned.of_to n) as Hof. unfold Nat.of_uint in Hof.
  destruct (NilEmpty.string_of_uint (Nat.to_uint n)) as [|c r] eqn:Hs.
  - destruct (Nat.to_uint n); try contradiction; discriminate Hs.
  - destruct (uint_not_signed _ _ _ Hs) as [-> ->].
    cbn [Z.of_nat] in Hr. rewrite Hr.
    destruct (Nat.to_uint n); [contradiction|..]; now rewrite Hof.
Qed.

(* ---- indexing ---- *)

Lemma nth_error_enumerate {A : Type} (l : list A) (start i : nat) (x : A) :
  nth_error l i = Some x ->
  nth_error (enumerate start l) i = Some (start + i, x).
Proof.
  unfold enumerate. revert start i.
  induction l as [|a l IH]; intros start [|i] H; try discriminate.
  - cbn in *. injection H as ->. now rewrite Nat.add_0_r.
  - cbn in *. rewrite (IH (S start) i H). f_equal. f_equal. lia.
Qed.

Lemma list_index_spec {A : Type} (l : list A) (i : Z) :
  list_index l i =
  if ((0 <=? i) && (i <? Z.of_nat (length l)))%Z then nth_error l (Z.to_nat i)
  else if ((- Z.of_nat (length l) <=? i) && (i <? 0))%Z
       then nth_error l (Z.to_nat (i + Z.of_nat (length l)))
       else None.
Proof.
  unfold list_index.
  destruct (Z.ltb_spec i 0); destruct (Z.leb_spec 0 i);
    destruct (Z.ltb_spec i (Z.of_nat (length l)));
    destruct (Z.leb_spec (- Z.of_nat (length l)) i);
    destruct (Z.leb_spec 0 (i + Z.of_nat (length l)));
    destruct (Z.ltb_spec (i + Z.of_nat (length l)) (Z.of_nat (length l)));
    cbn; try reflexivity; lia.
Qed.

(** X5: the index shown in the table selects the row's repository: the
    [i]-th repository (counting from 0) is shown with index [str(i + 1)], in
    the table of choices 1 and 2 and in the table of choice 3, and typing
    that index selects it. *)
Theorem select_repository_row repos i r :
  nth_error repos i = Some r ->
  nth_error (repo_rows repos) i
  = Some [str_of_nat (S i); name r; visibility r; repo_type r; html_url r] /\
  nth_error (owned_rows repos) i
  = Some [str_of_nat (S i); name r; visibility r; html_url r] /\
  select_repository repos (str_of_nat (S i)) = Some r.
Proof.
  intros H. unfold repo_rows, owned_rows.
  rewrite !nth_error_map, (nth_error_enumerate repos 1 i r H). cbn [option_map].
  split; [reflexivity|]. split; [reflexivity|].
  unfold select_repository. rewrite int_of_str_of_nat. cbn zeta.
  rewrite list_index_spec.
  assert (Hlt : i < length repos) by (apply nth_error_Some; congruence).
  destruct (Z.leb_spec 0 (Z.of_nat (S i) - 1));
    destruct (Z.ltb_spec (Z.of_nat (S i) - 1) (Z.of_nat (length repos)));
    cbn [andb]; try lia.
  replace (Z.to_nat (Z.of_nat (S i) - 1)) with i by lia. exact H.
Qed.

Lemma select_repository_row_witness :
  nth_error (repo_rows (descriptors alice "all" alice_repos)) 1
  = Some ["2"; "proj-b"; "Private"; "owner"; ""]%string /\
  nth_error (owned_rows (descriptors alice "all" alice_repos)) 1
  = Some ["2"; "proj-b"; "Private"; ""]%string /\
  select_repository (descriptors alice "all" alice_repos) "2"
  = Some (describe alice (mkRepoJson "proj-b" "Alice" true None None None)).
Proof.
  apply (select_repository_row (descriptors alice "all" alice_repos) 1
           (describe alice (mkRepoJson "proj-b" "Alice" true None None None))).
  reflexivity.
Defined.

(** X6: the index is not checked against the table: [0] and the negative
    numbers down to minus the number of rows plus one are accepted, and
    select from the end of the list ([0] the last repository), as Python's
    negative indices do. *)
Theorem select_repository_wraps repos input z :
  int_of_str input = Some z ->
  (1 - Z.of_nat (length repos) <= z <= 0)%Z ->
  select_repository repos input
  = nth_error repos (Z.to_nat (z - 1 + Z.of_nat (length repos))) /\
  select_repository repos input <> None.
Proof.
  intros Hz Hr. unfold select_repository. rewrite Hz. cbn zeta.
  rewrite list_index_spec.
  destruct (Z.leb_spec 0 (z - 1));
    destruct (Z.ltb_spec (z - 1) (Z.of_nat (length repos)));
    destruct (Z.leb_spec (- Z.of_nat (length repos)) (z - 1));
    destruct (Z.ltb_spec (z - 1) 0); cbn [andb]; try lia.
  split; [reflexivity|]. apply nth_error_Some. lia.
Qed.

Lemma select_repository_wraps_witness :
  select_repository (descriptors alice "all" alice_repos) "0"
  = nth_error (descriptors alice "all" alice_repos)
              (Z.to_nat (0 - 1 + Z.of_nat
                                   (length (descriptors alice "all" alice_repos))))
  /\ select_repository (descriptors alice "all" alice_repos) "0" <> None.
Proof.
  apply (select_repository_wraps (descriptors alice "all" alice_repos) "0" 0%Z).
  - vm_compute. reflexivity.
  - vm_compute. split; discriminate.
Defined.

(** X7: the answer is an invalid index exactly when it is not an integer
    literal, or the integer is greater than the number of rows, or it is
    below one minus the number of rows. *)
Theorem select_repository_invalid repos input :
  select_repository repos input = None <->
  match int_of_str input with
  | None => True
  | Some z => (z > Z.of_nat (length repos) \/ z < 1 - Z.of_nat (length repos))%Z
  end.
Proof.
  unfold select_repository. destruct (int_of_str input) as [z|]; [|tauto].
  cbn zeta. rewrite list_index_spec.
  destruct (Z.leb_spec 0 (z - 1));
    destruct (Z.ltb_spec (z - 1) (Z.of_nat (length repos)));
    destruct (Z.leb_spec (- Z.of_nat (length repos)) (z - 1));
    destruct (Z.ltb_spec (z - 1) 0); cbn [andb]; try lia;
    try (split; [intros _; lia | reflexivity]).
  - split; [|lia]. intros H'. apply nth_error_None in H'. lia.
  - split; [|lia]. intros H'. apply nth_error_None in H'. lia.
Qed.

(* ================================================================= *)
(** ** get_repositories: the filter *)

Lemma filter_map_swap {A B : Type} (f : A -> B) (p : B -> bool) (l : list A) :
  filter p (map f l) = map f (filter (fun a => p (f a)) l).
Proof.
  induction l as [|a l IH]; cbn; [reflexivity|].
  destruct (p (f a)); cbn; now rewrite IH.
Qed.

Lemma filter_true {A : Type} (l : list A) : filter (fun _ => true) l = l.
Proof. induction l; cbn; congruence. Qed.

Lemma descriptors_all self body :
  descriptors self "all" body = map (describe self) body.
Proof. unfold descriptors. cbn. now rewrite filter_true. Qed.

Lemma descriptors_owner self body :
  descriptors self "owner" body
  = filter (fun r => String.eqb (repo_type r) "owner") (map (describe self) body).
Proof.
  unfold descriptors. rewrite filter_map_swap. f_equal.
  apply filter_ext. intros a. unfold keeps, describe. cbn.
  now destruct (owned_by (username self) a).
Qed.

Lemma descriptors_collaborator self body :
  descriptors self "collaborator" body
  = filter (fun r => String.eqb (repo_type r) "collaborator")
           (map (describe self) body).
Proof.
  unfold descriptors. rewrite filter_map_swap. f_equal.
  apply filter_ext. intros a. unfold keeps, describe. cbn.
  now destruct (owned_by (username self) a).
Qed.

Lemma descriptors_other self f body :
  f <> "owner"%string -> f <> "collaborator"%string ->
  descriptors self f body = descriptors self "all" body.
Proof.
  intros Ho Hc. unfold descriptors. f_equal. apply filter_ext. intros a.
  unfold keeps. apply String.eqb_neq in Ho, Hc. now rewrite Ho, Hc.
Qed.

(** X8: the filter is not validated: any [repo_filter] other than
    ["owner"] and ["collaborator"] behaves as ["all"]. *)
Theorem get_repositories_unknown_filter E self repo_filter w :
  repo_filter <> "owner"%string -> repo_filter <> "collaborator"%string ->
  get_repositories E self repo_filter w = get_repositories E self "all" w.
Proof.
  intros Ho Hc. rewrite !get_repositories_run. cbn zeta.
  destruct (http E (clock w) (list_request self)) as [r|e]; [|reflexivity].
  destruct (status_code r =? 200)%Z; [|reflexivity].
  now rewrite (descriptors_other self repo_filter _ Ho Hc).
Qed.

Lemma get_repositories_unknown_filter_witness :
  get_repositories env_yes alice "owned" world0
  = get_repositories env_yes alice "all" world0.
Proof.
  apply (get_repositories_unknown_filter env_yes alice "owned" world0);
    discriminate.
Defined.

Lemma owner_or_collaborator self (l : list RepoJson) :
  length (map (describe self) l)
  = length (filter (fun r => String.eqb (repo_type r) "owner")
                   (map (describe self) l))
    + length (filter (fun r => String.eqb (repo_type r) "collaborator")
                     (map (describe self) l)).
Proof.
  induction l as [|a l IH]; [reflexivity|]. cbn [map filter].
  replace (String.eqb (repo_type (describe self a)) "owner")
    with (owned_by (username self) a)
    by (unfold describe; cbn; now destruct (owned_by (username self) a)).
  replace (String.eqb (repo_type (describe self a)) "collaborator")
    with (negb (owned_by (username self) a))
    by (unfold describe; cbn; now destruct (owned_by (username self) a)).
  destruct (owned_by (username self) a); cbn [negb length]; lia.
Qed.

(** X9: against the same answer of the platform, the three filters agree:
    ["all"] lists every entry of the answer, in its order; ["owner"] and
    ["collaborator"] are the sub-lists of ["all"] of that type, and between
    them they split it. *)
Theorem get_repositories_partition E self w la lo lc :
  fst (get_repositories E self "all" w) = Ret la ->
  fst (get_repositories E self "owner" w) = Ret lo ->
  fst (get_repositories E self "collaborator" w) = Ret lc ->
  map name la = map json_name (listing (http E (clock w) (list_request self))) /\
  lo = filter (fun r => String.eqb (repo_type r) "owner") la /\
  lc = filter (fun r => String.eqb (repo_type r) "collaborator") la /\
  length la = length lo + length lc.
Proof.
  rewrite !get_repositories_run. cbn zeta.
  destruct (http E (clock w) (list_request self)) as [r|e]; [|discriminate].
  unfold listing.
  destruct (status_code r =? 200)%Z; cbn [fst]; intros Ha Ho Hc;
    injection Ha as <-; injection Ho as <-; injection Hc as <-.
  - rewrite descriptors_all, descriptors_owner, descriptors_collaborator.
    rewrite map_map. cbn [describe name].
    repeat split; try reflexivity. apply owner_or_collaborator.
  - repeat split; reflexivity.
Qed.

Lemma get_repositories_partition_witness :
  map name (descriptors alice "all" alice_repos)
  = map json_name (listing (http env_yes (clock world0) (list_request alice))) /\
  descriptors alice "owner" alice_repos
  = filter (fun r => String.eqb (repo_type r) "owner")
           (descriptors alice "all" alice_repos) /\
  descriptors alice "collaborator" alice_repos
  = filter (fun r => String.eqb (repo_type r) "collaborator")
           (descriptors alice "all" alice_repos) /\
  length (descriptors alice "all" alice_repos)
  = length (descriptors alice "owner" alice_repos)
    + length (descriptors alice "collaborator" alice_repos).
Proof.
  apply (get_repositories_partition env_yes alice world0
           (descriptors alice "all" alice_repos)
           (descriptors alice "owner" alice_repos)
           (descriptors alice "collaborator" alice_repos));
    vm_compute; reflexivity.
Defined.

(* ================================================================= *)
(** ** delete_repository and leave_repository *)

(** X10: [delete_repository] asks one confirmation; it sends the [DELETE]
    of [/repos/<username>/<repo_name>] exactly when the operator affirmed,
    and nothing otherwise; it returns [True] exactly when the operator
    affirmed and the platform answered 204; it leaves the working directory
    and the disk alone. *)
Theorem delete_repository_outcome E self repo_name w :
  exists new,
    history (snd (delete_repository E self repo_name w)) = history w ++ new /\
    cwd (snd (delete_repository E self repo_name w)) = cwd w /\
    fs (snd (delete_repository E self repo_name w)) = fs w /\
    asked new
    = [(delete_prompt repo_name, ask E (clock w) (delete_prompt repo_name))] /\
    sent new
    = (if ask E (clock w) (delete_prompt repo_name)
       then [delete_request self repo_name] else []) /\
    (fst (delete_repository E self repo_name w) = Ret true <->
     ask E (clock w) (delete_prompt repo_name) = true /\
     exists r, http E (S (clock w)) (delete_request self repo_name)
               = Responded r /\ status_code r = 204%Z).
Proof.
  destruct w as [c h d f].
  unfold delete_repository, bind, Confirm_ask, send, console_print, ret,
    record, tick. cbn.
  repeat oracle_case.
  all: repeat rewrite <- app_assoc; cbn.
  all: eexists; split; [reflexivity|].
  all: do 4 (split; [reflexivity|]).
  all: split;
    [ intros H; first [ discriminate H | split; [reflexivity | eauto] ]
    | intros [Hq [r' [Hr Hs]]]; first [ discriminate | congruence ] ].
Qed.

(** X11: [leave_repository] asks one confirmation; when the operator
    affirmed it sends one [DELETE] of
    [/repos/<owner>/<name>/collaborators/<username>] with the account's own
    token, and nothing otherwise; it returns [True] exactly when the operator
    affirmed and the platform answered 204. *)
Theorem leave_repository_outcome E self repo w :
  exists new,
    history (snd (leave_repository E self repo w)) = history w ++ new /\
    cwd (snd (leave_repository E self repo w)) = cwd w /\
    fs (snd (leave_repository E self repo w)) = fs w /\
    asked new = [(leave_prompt repo, ask E (clock w) (leave_prompt repo))] /\
    sent new
    = (if ask E (clock w) (leave_prompt repo)
       then [mkRequest DELETE
               ("https://api.github.com/repos/" ++ owner repo ++ "/"
                ++ name repo ++ "/collaborators/" ++ username self)%string
               (auth_headers (token self)) None]
       else []) /\
    (fst (leave_repository E self repo w) = Ret true <->
     ask E (clock w) (leave_prompt repo) = true /\
     exists r, http E (S (clock w)) (leave_request self repo)
               = Responded r /\ status_code r = 204%Z).
Proof.
  destruct w as [c h d f].
  unfold leave_repository, bind, Confirm_ask, send, console_print, ret,
    record, tick. cbn.
  repeat oracle_case.
  all: repeat rewrite <- app_assoc; cbn.
  all: eexists; split; [reflexivity|].
  all: do 4 (split; [reflexivity|]).
  all: split;
    [ intros H; first [ discriminate H | split; [reflexivity | eauto] ]
    | intros [Hq [r' [Hr Hs]]]; first [ discriminate | congruence ] ].
Qed.

(* ================================================================= *)
(** ** get_account_statistics *)

Lemma owned_count self body :
  py_len (filter (fun r => String.eqb (repo_type r) "owner")
                 (map (describe self) body))
  = py_len (filter (owned_by (username self)) body).
Proof.
  unfold py_len. rewrite filter_map_swap, length_map. do 2 f_equal.
  apply filter_ext. intros a. unfold describe. cbn.
  now destruct (owned_by (username self) a).
Qed.

Lemma collaborator_count self body :
  py_len (filter (fun r => String.eqb (repo_type r) "collaborator")
                 (map (describe self) body))
  = py_len (filter (fun a => negb (owned_by (username self) a)) body).
Proof.
  unfold py_len. rewrite filter_map_swap, length_map. do 2 f_equal.
  apply filter_ext. intros a. unfold describe. cbn.
  now destruct (owned_by (username self) a).
Qed.

Lemma py_len_split {A : Type} (p : A -> bool) (l : list A) :
  py_len l = (py_len (filter p l) + py_len (filter (fun a => negb (p a)) l))%Z.
Proof.
  unfold py_len. rewrite <- Nat2Z.inj_add. f_equal.
  induction l as [|a l IH]; cbn; [reflexivity|].
  destruct (p a); cbn; lia.
Qed.

(** What [get_account_statistics] returns, whatever the profile request
    came to. *)
Lemma get_account_statistics_run user_json E self w stats :
  fst (get_account_statistics user_json E self w) = Ret stats ->
  stats =
  profile_entries user_json (http E (clock w) (user_request self)) ++
  [("Total Repos",
    PyInt (py_len (listing (http E (S (clock w)) (list_request self)))));
   ("Owned Repos",
    PyInt (py_len (filter (owned_by (username self))
                          (listing (http E (S (clock w)) (list_request self))))));
   ("Collaborator Repos",
    PyInt (py_len (filter (fun a => negb (owned_by (username self) a))
                          (listing (http E (S (clock w)) (list_request self))))));
   ("Total Stars",
    PyInt (py_sum (map (fun a => from_option 0%Z (json_stargazers_count a))
                       (listing (http E (S (clock w)) (list_request self))))));
   ("Total Forks",
    PyInt (py_sum (map (fun a => from_option 0%Z (json_forks_count a))
                       (listing (http E (S (clock w)) (list_request self))))))].
Proof.
  destruct w as [c h d f].
  unfold get_account_statistics, bind, send, profile_entries. cbn [clock].
  destruct (http E c (user_request self)) as [r|e] eqn:Hu; [|discriminate].
  destruct (status_code r =? 200)%Z;
    unfold console_print, ret, tick, record;
    cbn [fst snd clock history cwd fs];
    rewrite get_repositories_run; cbn zeta; cbn [clock];
    (destruct (http E (S c) (list_request self)) as [r2|e2]; [|discriminate]);
    unfold listing; destruct (status_code r2 =? 200)%Z; cbn [fst];
    intros Hst; injection Hst as <-;
    rewrite ?descriptors_all, ?owned_count, ?collaborator_count, ?map_map;
    unfold py_len; rewrite ?length_map; reflexivity.
Qed.

Lemma dict_get_app {V : Type} (k : string) (p t : dict V) :
  dict_get k (p ++ t)
  = match dict_get k p with Some v => Some v | None => dict_get k t end.
Proof.
  induction p as [|[k' v'] p IH]; cbn; [reflexivity|].
  destruct (String.eqb k k'); [reflexivity | exact IH].
Qed.

(** X12: in the statistics returned, "Total Repos" is the number of
    entries listed, and equals "Owned Repos" plus "Collaborator Repos";
    "Total Stars" and "Total Forks" are the sums of the entries' counts, an
    entry without the count adding 0. *)
Theorem get_account_statistics_totals user_json E self w stats :
  fst (get_account_statistics user_json E self w) = Ret stats ->
  exists total owned collaborated,
    dict_get "Total Repos" stats = Some (PyInt total) /\
    dict_get "Owned Repos" stats = Some (PyInt owned) /\
    dict_get "Collaborator Repos" stats = Some (PyInt collaborated) /\
    total = (owned + collaborated)%Z /\
    total = py_len (listing (http E (S (clock w)) (list_request self))) /\
    owned = py_len (filter (owned_by (username self))
                           (listing (http E (S (clock w)) (list_request self)))) /\
    dict_get "Total Stars" stats
    = Some (PyInt (py_sum (map (fun a => from_option 0%Z (json_stargazers_count a))
                               (listing (http E (S (clock w))
                                               (list_request self)))))) /\
    dict_get "Total Forks" stats
    = Some (PyInt (py_sum (map (fun a => from_option 0%Z (json_forks_count a))
                               (listing (http E (S (clock w))
                                               (list_request self)))))).
Proof.
  intros H. apply get_account_statistics_run in H. subst stats.
  do 3 eexists.
  assert (Hnone : forall k,
             In k ["Total Repos"; "Owned Repos"; "Collaborator Repos";
                   "Total Stars"; "Total Forks"]%string ->
             dict_get k (profile_entries user_json
                           (http E (clock w) (user_request self))) = None).
  { intros k Hk. unfold profile_entries.
    destruct (http E (clock w) (user_request self)) as [r|e]; [|reflexivity].
    destruct (status_code r =? 200)%Z; [|reflexivity].
    cbn in Hk. repeat destruct Hk as [<-|Hk]; try reflexivity. destruct Hk. }
  rewrite !dict_get_app, !Hnone by (cbn; tauto).
  repeat split; try reflexivity.
  apply py_len_split.
Qed.

Lemma get_account_statistics_totals_witness :
  exists total owned collaborated,
    dict_get "Total Repos" (sample_statistics) = Some (PyInt total) /\
    dict_get "Owned Repos" (sample_statistics) = Some (PyInt owned) /\
    dict_get "Collaborator Repos" (sample_statistics)
    = Some (PyInt collaborated) /\
    total = (owned + collaborated)%Z /\
    total = py_len (listing (http env_profile (S (clock world0))
                                  (list_request alice))) /\
    owned = py_len (filter (owned_by (username alice))
                           (listing (http env_profile (S (clock world0))
                                          (list_request alice)))) /\
    dict_get "Total Stars" (sample_statistics)
    = Some (PyInt (py_sum (map (fun a => from_option 0%Z (json_stargazers_count a))
                               (listing (http env_profile (S (clock world0))
                                               (list_request alice)))))) /\
    dict_get "Total Forks" (sample_statistics)
    = Some (PyInt (py_sum (map (fun a => from_option 0%Z (json_forks_count a))
                               (listing (http env_profile (S (clock world0))
                                               (list_request alice)))))).
Proof.
  apply (get_account_statistics_totals sample_user_json env_profile alice world0
           sample_statistics).
  vm_compute. reflexivity.
Defined.

(** X13: the statistics always hold the five repository entries, in the
    order "Total Repos", "Owned Repos", "Collaborator Repos", "Total Stars",
    "Total Forks"; the six profile entries come before them exactly when the
    profile request was answered with status 200, and are left out (not set
    to a default) otherwise.  The dictionary is never empty. *)
Theorem get_account_statistics_keys user_json E self w stats :
  fst (get_account_statistics user_json E self w) = Ret stats ->
  dict_keys stats =
  (match http E (clock w) (user_request self) with
   | Responded r =>
       if (status_code r =? 200)%Z
       then ["Login"; "Name"; "Public Repos"; "Followers"; "Following";
             "Created At"]%string
       else []
   | HttpRaised _ => []
   end)
  ++ ["Total Repos"; "Owned Repos"; "Collaborator Repos"; "Total Stars";
      "Total Forks"]%string /\
  stats <> [].
Proof.
  intros H. apply get_account_statistics_run in H. subst stats.
  unfold profile_entries.
  destruct (http E (clock w) (user_request self)) as [r|e];
    [destruct (status_code r =? 200)%Z|]; split; try reflexivity; discriminate.
Qed.

Lemma get_account_statistics_keys_witness :
  dict_keys sample_statistics =
  (match http env_profile (clock world0) (user_request alice) with
   | Responded r =>
       if (status_code r =? 200)%Z
       then ["Login"; "Name"; "Public Repos"; "Followers"; "Following";
             "Created At"]%string
       else []
   | HttpRaised _ => []
   end)
  ++ ["Total Repos"; "Owned Repos"; "Collaborator Repos"; "Total Stars";
      "Total Forks"]%string /\
  sample_statistics <> [].
Proof.
  apply (get_account_statistics_keys sample_user_json env_profile alice world0
           sample_statistics).
  vm_compute. reflexivity.
Defined.

(** X14: [get_account_statistics] only reads: it sends the [GET] of the
    profile and then the [GET] of the listing, and nothing else; it asks the
    operator nothing; and when no request raises it returns a dictionary,
    whatever the status of the answers. *)
Theorem get_account_statistics_read_only user_json E self w :
  exists new,
    history (snd (get_account_statistics user_json E self w)) = history w ++ new /\
    (sent new = [user_request self] \/
     sent new = [user_request self; list_request self]) /\
    asked new = [] /\
    (never_raises E ->
     exists stats, fst (get_account_statistics user_json E self w) = Ret stats).
Proof.
  destruct w as [c h d f].
  unfold get_account_statistics, bind, send. cbn [clock].
  destruct (http E c (user_request self)) as [r|e] eqn:Hu.
  2:{ cbn. eexists. split; [reflexivity|]. split; [now left|].
      split; [reflexivity|]. intros HE. destruct (HE c (user_request self)).
      congruence. }
  destruct (status_code r =? 200)%Z;
    unfold console_print, ret, tick, record;
    cbn [fst snd clock history cwd fs];
    rewrite get_repositories_run; cbn zeta; cbn [clock];
    (destruct (http E (S c) (list_request self)) as [r2|e2] eqn:Hl;
     [destruct (status_code r2 =? 200)%Z|]);
    unfold tick, record; cbn [fst snd clock history cwd fs];
    repeat rewrite <- app_assoc;
    (eexists; split; [reflexivity|]); cbn;
    (split; [now right|]); (split; [reflexivity|]);
    intros HE; try (eexists; reflexivity);
    destruct (HE (S c) (list_request self)); congruence.
Qed.

(* ================================================================= *)
(** ** list_duplicate_repos and delete_duplicate_repos, further *)

(** X15: [list_duplicate_repos] only reads: it sends the listing request
    of the account and then, unless that one raised, the listing request
    with the other account's token, and nothing else; it asks the operator
    nothing and leaves the working directory and the disk alone; when no
    request raises it returns a dictionary. *)
Theorem list_duplicate_repos_read_only E self other_username other_token w :
  exists new,
    history (snd (list_duplicate_repos E self other_username other_token w))
    = history w ++ new /\
    (sent new = [list_request self] \/
     sent new = [list_request self; other_list_request other_token]) /\
    asked new = [] /\
    cwd (snd (list_duplicate_repos E self other_username other_token w)) = cwd w /\
    fs (snd (list_duplicate_repos E self other_username other_token w)) = fs w /\
    (never_raises E ->
     exists duplicates,
       fst (list_duplicate_repos E self other_username other_token w)
       = Ret duplicates).
Proof.
  destruct w as [c h d f].
  unfold list_duplicate_repos, bind. rewrite get_repositories_run. cbn.
  destruct (http E c (list_request self)) as [r1|e1] eqn:H1; cbn.
  2:{ eexists. split; [reflexivity|]. cbn. split; [now left|].
      repeat split. intros HE. destruct (HE c (list_request self)). congruence. }
  destruct (status_code r1 =? 200)%Z;
    unfold send, console_print, ret, record, tick; cbn;
    (destruct (http E (S c) (other_list_request other_token)) as [r2|e2] eqn:H2;
     cbn; [destruct (status_code r2 =? 200)%Z; cbn|]);
    repeat rewrite <- app_assoc; cbn;
    (eexists; split; [reflexivity|]); cbn;
    (split; [now right|]); repeat split;
    intros HE; try (eexists; reflexivity);
    destruct (HE (S c) (other_list_request other_token)); congruence.
Qed.

Lemma list_duplicate_repos_keys E self other_username other_token w duplicates :
  fst (list_duplicate_repos E self other_username other_token w)
  = Ret duplicates ->
  forall n,
    In n (dict_keys duplicates) <->
    In n (map json_name
              (filter (owned_by (username self))
                      (listing (http E (clock w) (list_request self))))) /\
    In n (map json_name
              (filter (owned_by other_username)
                      (listing (http E (S (clock w))
                                      (other_list_request other_token))))).
Proof.
  unfold list_duplicate_repos, bind. rewrite get_repositories_run. cbn zeta.
  destruct (http E (clock w) (list_request self)) as [r1|e1] eqn:H1;
    [|discriminate].
  destruct (status_code r1 =? 200)%Z eqn:Hs1;
    unfold send, console_print, ret, record, tick; cbn;
    (destruct (http E (S (clock w)) (other_list_request other_token))
       as [r2|e2] eqn:H2; [|discriminate]);
    unfold listing; cbn;
    destruct (status_code r2 =? 200)%Z eqn:Hs2; cbn; rewrite ?Hs1, ?Hs2;
    intros Hd; injection Hd as <-; intros n.
  - apply duplicates_keys.
  - cbn. tauto.
  - cbn. tauto.
  - cbn. tauto.
Qed.

(** X16: the comparison is symmetric in the names: against a platform
    whose answers do not depend on when it is asked, the duplicates that
    account [a] finds with [b] and the ones [b] finds with [a] have the same
    names. *)
Theorem list_duplicate_repos_same_names E a b w w' d1 d2 :
  (forall k k' req, http E k req = http E k' req) ->
  fst (list_duplicate_repos E a (username b) (token b) w) = Ret d1 ->
  fst (list_duplicate_repos E b (username a) (token a) w') = Ret d2 ->
  forall n, In n (dict_keys d1) <-> In n (dict_keys d2).
Proof.
  intros Hst H1 H2 n.
  rewrite (list_duplicate_repos_keys _ _ _ _ _ _ H1 n).
  rewrite (list_duplicate_repos_keys _ _ _ _ _ _ H2 n).
  change (other_list_request (token b)) with (list_request b).
  change (other_list_request (token a)) with (list_request a).
  rewrite (Hst (S (clock w)) (clock w') (list_request b)).
  rewrite (Hst (S (clock w')) (clock w) (list_request a)).
  tauto.
Qed.

Lemma list_duplicate_repos_same_names_witness :
  fst (list_duplicate_repos env_yes alice "carol" "tok-c" world0)
  = Ret alice_carol_duplicates /\
  fst (list_duplicate_repos env_yes (mkGitHubAssistant "carol" "tok-c")
                            "alice" "tok-a" world0)
  = Ret [("shared-lib", "Public"); ("proj-b", "Public")]%string /\
  forall n,
    In n (dict_keys alice_carol_duplicates) <->
    In n (dict_keys [("shared-lib", "Public"); ("proj-b", "Public")]%string).
Proof.
  split; [vm_compute; reflexivity|]. split; [vm_compute; reflexivity|].
  apply (list_duplicate_repos_same_names env_yes alice
           (mkGitHubAssistant "carol" "tok-c") world0 world0).
  - intros k k' req. reflexivity.
  - vm_compute. reflexivity.
  - vm_compute. reflexivity.
Defined.

Lemma affirmed_NoDup names answers :
  NoDup names -> NoDup (affirmed names answers).
Proof.
  unfold affirmed. revert answers.
  induction names as [|n names IH]; intros answers Hnd; [constructor|].
  inversion Hnd as [|? ? Hnin Hnd']; subst.
  destruct answers as [|b answers]; [constructor|]. cbn.
  destruct b; cbn; [|auto].
  constructor; [|auto]. intros Hin. apply Hnin.
  apply (affirmed_In n names answers). exact Hin.
Qed.

(** X17: every request that [delete_duplicate_repos] sends after the two
    listings is the deletion of a repository of the account itself whose
    name is a duplicate and is not excluded, and no repository is requested
    to be deleted twice. *)
Theorem delete_duplicate_repos_deletes_only_duplicates
        E self other_username other_token exclude w duplicates :
  fst (list_duplicate_repos E self other_username other_token w)
  = Ret duplicates ->
  exists new names,
    history (snd (delete_duplicate_repos E self other_username other_token
                                         exclude w))
    = history (snd (list_duplicate_repos E self other_username other_token w))
      ++ new /\
    sent new = map (delete_request self) names /\
    NoDup names /\
    forall n, In n names -> In n (dict_keys duplicates) /\ ~ In n exclude.
Proof.
  intros Hl. rewrite delete_duplicate_repos_run.
  destruct (list_duplicate_repos E self other_username other_token w)
    as [res [c1 h1 d1 f1]]. cbn in Hl. subst res. cbn [snd history].
  destruct (dict_is_empty duplicates).
  { exists [Printed none_found_notice], []. cbn.
    repeat split; try constructor; contradiction. }
  cbn zeta.
  pose proof (comprehension_NoDup fst snd
                (fun kv : string * string => negb (str_in (fst kv) exclude))
                duplicates) as Hnd.
  fold (repos_to_delete_of duplicates exclude) in Hnd.
  assert (Hkeys : forall m,
             In m (dict_keys (repos_to_delete_of duplicates exclude)) ->
             In m (dict_keys duplicates) /\ ~ In m exclude)
    by (intros m; apply repos_to_delete_keys).
  remember (repos_to_delete_of duplicates exclude) as rtd eqn:Hr. clear Hr.
  destruct (dict_is_empty rtd).
  { exists [Printed all_excluded_notice], []. cbn.
    repeat split; try constructor; contradiction. }
  unfold record, tick. cbn [clock history cwd fs].
  destruct (ask E c1 batch_prompt).
  - match goal with |- context [for_each ?l ?b ?w1] =>
      destruct (delete_loop_effects E self l w1)
        as (new2 & answers & Hh2 & _ & _ & Hsent2 & _);
      destruct (for_each l b w1) as [[[]|e] [c2 h2 d2 f2]]
    end; cbn in Hh2; subst h2; cbn [fst snd clock history cwd fs].
    + lazymatch goal with
      | |- exists _ _, ((((_ ++ ?p) ++ ?l) ++ ?q) ++ ?n2) ++ ?z = _ /\ _ =>
          exists (p ++ l ++ q ++ n2 ++ z), (affirmed (dict_keys rtd) answers)
      end.
      split; [now repeat rewrite <- app_assoc|].
      rewrite !sent_app, sent_printed, Hsent2. cbn. rewrite app_nil_r.
      split; [reflexivity|]. split; [now apply affirmed_NoDup|].
      intros n Hn. apply Hkeys. now apply affirmed_In in Hn.
    + lazymatch goal with
      | |- exists _ _, (((_ ++ ?p) ++ ?l) ++ ?q) ++ ?n2 = _ /\ _ =>
          exists (p ++ l ++ q ++ n2), (affirmed (dict_keys rtd) answers)
      end.
      split; [now repeat rewrite <- app_assoc|].
      rewrite !sent_app, sent_printed, Hsent2. cbn.
      split; [reflexivity|]. split; [now apply affirmed_NoDup|].
      intros n Hn. apply Hkeys. now apply affirmed_In in Hn.
  - cbn [fst snd clock history cwd fs].
    lazymatch goal with
    | |- exists _ _, (((_ ++ ?p) ++ ?l) ++ ?q) ++ ?z = _ /\ _ =>
        exists (p ++ l ++ q ++ z), []
    end.
    split; [now repeat rewrite <- app_assoc|].
    rewrite !sent_app, sent_printed. cbn.
    repeat split; try constructor; contradiction.
Qed.

Lemma delete_duplicate_repos_deletes_only_duplicates_witness :
  exists new names,
    history (snd (delete_duplicate_repos env_yes alice "carol" "tok-c"
                                         ["proj-b"%string] world0))
    = history (snd (list_duplicate_repos env_yes alice "carol" "tok-c" world0))
      ++ new /\
    sent new = map (delete_request alice) names /\
    NoDup names /\
    forall n, In n names ->
              In n (dict_keys alice_carol_duplicates) /\
              ~ In n ["proj-b"%string].
Proof.
  apply (delete_duplicate_repos_deletes_only_duplicates env_yes alice "carol"
           "tok-c" ["proj-b"%string] world0 alice_carol_duplicates).
  vm_compute. reflexivity.
Defined.

(* ================================================================= *)
(** ** transfer_repository, further *)

(** The requests of a migration. *)
Lemma transfer_repository_sent E self repo_name new_owner new_token delete_old w :
  exists new,
    history (snd (transfer_repository E self repo_name new_owner new_token
                                      delete_old w))
    = history w ++ new /\
    (sent new = [] /\ asked new = [(transfer_prompt repo_name new_owner, false)]
                   /\ spawned new = [] \/
     sent new = [create_request repo_name new_token] \/
     delete_old = true /\
     sent new = [create_request repo_name new_token;
                 delete_request self repo_name]).
Proof.
  destruct w as [c h dir f]. run_all.
  all: eexists; split; [reflexivity|].
  all: unfold sent, asked, spawned; cbn; auto.
Qed.

(** X18: a migration sends at most two requests: the creation on the
    destination and, last, the deletion of the source.  The deletion is sent
    only when [delete_old] is set, the push succeeded, and the operator
    affirmed the migration, the deletion from the old account and
    [delete_repository]'s own question.  A migration that returns [False]
    has sent no deletion: nothing undoes the creation on the destination. *)
Theorem transfer_repository_requests
        E self repo_name new_owner new_token delete_old w :
  exists new,
    history (snd (transfer_repository E self repo_name new_owner new_token
                                      delete_old w))
    = history w ++ new /\
    (sent new = [] \/
     sent new = [create_request repo_name new_token] \/
     sent new = [create_request repo_name new_token;
                 delete_request self repo_name]) /\
    (In (delete_request self repo_name) (sent new) ->
     delete_old = true /\
     push_succeeded new /\
     asked new
     = [(transfer_prompt repo_name new_owner, true);
        (("Delete repository '" ++ repo_name ++ "' from the old account?")%string,
         true);
        (delete_prompt repo_name, true)]) /\
    (fst (transfer_repository E self repo_name new_owner new_token delete_old w)
     = Ret false ->
     ~ In (delete_request self repo_name) (sent new)).
Proof.
  destruct w as [c h dir f]. run_all.
  all: eexists; split; [reflexivity|].
  all: unfold sent, asked, push_succeeded; cbn.
  all: split; [auto|].
  all: split;
    [ intros Hin; split_in Hin;
      first [ discriminate Hin
            | split; [reflexivity|]; split; [|reflexivity];
              subst; do 3 eexists; simpl;
              repeat first [left; reflexivity | right] ]
    | intros Hr Hin; try discriminate Hr; split_in Hin; discriminate Hin ].
Qed.



(** X20: the subprocesses of a migration are an initial segment of
    [git clone --mirror] of the source, run in the directory the job started
    in, then [git remote set-url origin] to the destination and
    [git push --mirror origin], both run inside the mirror directory
    [<repo_name>.git]; the last two are only started after a clone that
    exited with 0 and with the mirror directory on disk. *)
Theorem transfer_repository_subprocesses
        E self repo_name new_owner new_token delete_old w :
  exists new k,
    history (snd (transfer_repository E self repo_name new_owner new_token
                                      delete_old w))
    = history w ++ new /\
    spawned_in new
    = firstn k
        [(clone_cmd self repo_name, cwd w);
         (set_remote_cmd repo_name new_owner new_token,
          path_join (cwd w) (repo_name ++ ".git")%string);
         (push_cmd, path_join (cwd w) (repo_name ++ ".git")%string)] /\
    (2 <= k ->
     exists err created,
       In (Spawned (clone_cmd self repo_name) (cwd w) (Exited 0 err created))
          new /\
       In (path_join (cwd w) (repo_name ++ ".git")%string)
          (created ++ fs w)).
Proof.
  destruct w as [c h dir f]. cbn [cwd fs]. run_all.
  all: unfold spawned_in; cbn.
  all: first
    [ solve [eexists; exists 0; split; [reflexivity|]; split; [reflexivity|]; lia]
    | solve [eexists; exists 1; split; [reflexivity|]; split; [reflexivity|]; lia]
    | eexists; exists 2; split; [reflexivity|]; split; [reflexivity|]; intros _
    | eexists; exists 3; split; [reflexivity|]; split; [reflexivity|]; intros _ ].
  all: subst; do 2 eexists; split;
    [ simpl; repeat first [left; reflexivity | right]
    | match goal with H : str_in _ _ = true |- _ =>
        apply str_in_In in H; exact H end ].
Qed.

(* ================================================================= *)
(** ** main.py: the actions of the menu *)

Local Arguments select_repository : simpl never.
Local Arguments repo_rows : simpl never.
Local Arguments owned_rows : simpl never.

Lemma select_repository_In repos input r :
  select_repository repos input = Some r -> In r repos.
Proof.
  unfold select_repository, list_index.
  destruct (int_of_str input) as [z|]; [|discriminate]. cbn zeta.
  match goal with |- context [if ?b then _ else None] => destruct b end;
    [|discriminate].
  apply nth_error_In.
Qed.

Lemma select_repository_nil input : select_repository [] input = None.
Proof.
  destruct (select_repository [] input) as [r|] eqn:H; [|reflexivity].
  now apply select_repository_In in H.
Qed.

Lemma descriptors_owner_type self body r :
  In r (descriptors self "owner" body) -> repo_type r = "owner"%string.
Proof.
  rewrite descriptors_owner. intros H. apply filter_In in H as [_ H].
  now apply String.eqb_eq.
Qed.

(** X21: choice 2 lists with filter ["all"] and acts on the repository the
    index selects: one of type ["owner"] goes to [delete_repository] with its
    name, any other to [leave_repository]; one confirmation is asked, and the
    one [DELETE] is sent only if it is affirmed.  With an invalid index (or
    nothing listed) the listing request is all that happens. *)
Theorem menu_delete_or_leave_dispatch render E assistant repo_index w :
  exists new,
    history (snd (menu_delete_or_leave render E assistant repo_index w))
    = history w ++ new /\
    match select_repository
            (descriptors assistant "all"
               (listing (http E (clock w) (list_request assistant))))
            repo_index with
    | None => sent new = [list_request assistant] /\ asked new = []
    | Some repo =>
        In repo (descriptors assistant "all"
                   (listing (http E (clock w) (list_request assistant)))) /\
        if String.eqb (repo_type repo) "owner" then
          asked new
          = [(delete_prompt (name repo),
              ask E (S (clock w)) (delete_prompt (name repo)))] /\
          sent new
          = list_request assistant
            :: (if ask E (S (clock w)) (delete_prompt (name repo))
                then [delete_request assistant (name repo)] else [])
        else
          asked new
          = [(leave_prompt repo, ask E (S (clock w)) (leave_prompt repo))] /\
          sent new
          = list_request assistant
            :: (if ask E (S (clock w)) (leave_prompt repo)
                then [leave_request assistant repo] else [])
    end.
Proof.
  destruct w as [c h d f].
  unfold menu_delete_or_leave, bind. rewrite get_repositories_run.
  cbn [clock]. cbn zeta. unfold listing.
  destruct (http E c (list_request assistant)) as [r|e].
  2:{ rewrite select_repository_nil. cbn.
      eexists. split; [reflexivity|]. split; reflexivity. }
  destruct (status_code r =? 200)%Z.
  2:{ rewrite select_repository_nil. unfold console_print, record, tick. cbn.
      repeat rewrite <- app_assoc. cbn.
      eexists. split; [reflexivity|]. split; reflexivity. }
  destruct (descriptors assistant "all" (json_body r)) as [|d0 ds] eqn:Hd.
  { rewrite select_repository_nil. unfold console_print, record, tick. cbn.
    repeat rewrite <- app_assoc. cbn.
    eexists. split; [reflexivity|]. split; reflexivity. }
  cbv beta iota.
  destruct (select_repository (d0 :: ds) repo_index) as [repo|] eqn:Hsel.
  2:{ unfold console_print, record, tick, bind. cbn.
      repeat rewrite <- app_assoc.
      eexists. split; [reflexivity|]. split; reflexivity. }
  pose proof (select_repository_In _ _ _ Hsel) as Hin.
  destruct (String.eqb (repo_type repo) "owner").
  - unfold delete_repository, bind, Confirm_ask, send, console_print, ret,
      record, tick. cbn.
    repeat oracle_case; repeat rewrite <- app_assoc;
      (eexists; split; [reflexivity|]; split; [exact Hin|];
       split; reflexivity).
  - unfold leave_repository, bind, Confirm_ask, send, console_print, ret,
      record, tick. cbn.
    repeat oracle_case; repeat rewrite <- app_assoc;
      (eexists; split; [reflexivity|]; split; [exact Hin|];
       split; reflexivity).
Qed.

(** X22: choice 3 selects among the repositories of type ["owner"] only;
    the repository created on the destination bears the selected one's name,
    and the source is requested to be deleted only if the answer to the
    yes/no question, lower-cased, is ["yes"].  With an invalid index the
    listing request is all that happens: no question, no subprocess. *)
Theorem menu_transfer_owned_only
        render E assistant repo_index new_owner new_token delete_old_str w :
  exists new,
    history (snd (menu_transfer render E assistant repo_index new_owner
                                new_token delete_old_str w))
    = history w ++ new /\
    match select_repository
            (descriptors assistant "owner"
               (listing (http E (clock w) (list_request assistant))))
            repo_index with
    | None =>
        sent new = [list_request assistant] /\ asked new = [] /\
        spawned new = []
    | Some repo =>
        repo_type repo = "owner"%string /\
        (sent new = [list_request assistant] /\ spawned new = [] \/
         sent new = [list_request assistant;
                     create_request (name repo) new_token] \/
         lower delete_old_str = "yes"%string /\
         sent new = [list_request assistant;
                     create_request (name repo) new_token;
                     delete_request assistant (name repo)])
    end.
Proof.
  destruct w as [c h d f].
  unfold menu_transfer, bind. rewrite get_repositories_run.
  cbn [clock]. cbn zeta. unfold listing.
  destruct (http E c (list_request assistant)) as [r|e].
  2:{ rewrite select_repository_nil. cbn.
      eexists. split; [reflexivity|]. repeat split; reflexivity. }
  destruct (status_code r =? 200)%Z.
  2:{ rewrite select_repository_nil. unfold console_print, record, tick. cbn.
      repeat rewrite <- app_assoc. cbn.
      eexists. split; [reflexivity|]. repeat split; reflexivity. }
  pose proof (descriptors_owner_type assistant (json_body r)) as Hown.
  destruct (descriptors assistant "owner" (json_body r)) as [|d0 ds] eqn:Hd.
  { rewrite select_repository_nil. unfold console_print, record, tick. cbn.
    repeat rewrite <- app_assoc. cbn.
    eexists. split; [reflexivity|]. repeat split; reflexivity. }
  cbv beta iota.
  destruct (select_repository (d0 :: ds) repo_index) as [repo|] eqn:Hsel.
  2:{ unfold console_print, record, tick, bind. cbn.
      repeat rewrite <- app_assoc. cbn.
      eexists. split; [reflexivity|]. repeat split; reflexivity. }
  pose proof (Hown _ (select_repository_In _ _ _ Hsel)) as Hty.
  unfold console_print at 1. unfold record at 1. cbn [clock history cwd fs].
  match goal with |- context [transfer_repository ?E0 ?s ?n ?o ?t ?b ?w0] =>
    destruct (transfer_repository_sent E0 s n o t b w0)
      as (new & Hh & Hs);
    destruct (transfer_repository E0 s n o t b w0) as [[v|e] [c2 h2 d2 f2]]
  end; cbn [snd history tick record clock cwd fs] in Hh; subst h2;
    unfold ret; cbn [snd fst history].
  all: eexists; (split; [repeat rewrite <- app_assoc; reflexivity|]).
  all: split; [exact Hty|].
  all: rewrite !sent_app; cbn [sent flat_map app].
  all: destruct Hs as [(Hs & _ & Hsp)|[Hs|[Hd' Hs]]]; rewrite Hs.
  all: first
    [ left; split; [reflexivity|]; unfold spawned in *; cbn; exact Hsp
    | right; left; reflexivity
    | right; right; split; [now apply String.eqb_eq | reflexivity] ].
Qed.

(** X23: choice 4 spares what the operator names: when the answer is
    repository names (without white space in them) separated by single
    spaces, no deletion is requested for any of them. *)
Theorem menu_duplicates_spares_typed_names
        E assistant other_username other_token names w :
  forallb is_word names = true ->
  exists new,
    history (snd (menu_duplicates E assistant other_username other_token
                                  (str_join " " names) w))
    = history w ++ new /\
    forall n, In n names -> ~ In (delete_request assistant n) (sent new).
Proof.
  intros Hw. unfold menu_duplicates.
  rewrite exclude_list_of_split, (str_split_join names Hw).
  apply delete_duplicate_repos_trace.
Qed.

Lemma menu_duplicates_spares_typed_names_witness :
  exists new,
    history (snd (menu_duplicates env_yes alice "carol" "tok-c"
                                  (str_join " " ["proj-b"; "shared-lib"]%string)
                                  world0))
    = history world0 ++ new /\
    forall n, In n ["proj-b"; "shared-lib"]%string ->
              ~ In (delete_request alice n) (sent new).
Proof.
  apply (menu_duplicates_spares_typed_names env_yes alice "carol" "tok-c"
           ["proj-b"; "shared-lib"]%string world0).
  vm_compute. reflexivity.
Defined.

